(** * Global inequality demo loader: a shallow embedding of [load_data.py]

    The loader synthesises demo statistics for a fixed catalog of 48
    countries and writes five tables into a SQLite database.  Floating
    point values are modelled as exact rationals [Q]; Python's
    [round(x, 2)] is rounding half to even at two decimals; every call of
    [random.uniform(a, b)] consumes one unit draw [u] of the pseudo-random
    stream and returns [a + (b - a) * u], as CPython computes it. *)

From Stdlib Require Import QArith Qround Qpower Lqa ZArith List String Bool Lia.
Import ListNotations.
Open Scope Q_scope.

(* ------------------------------------------------------------------ *)
(** ** Python numerics *)

(** [round(z)] to an integer, ties to even. *)
Definition round_half_even (z : Q) : Z :=
  let f := Qfloor z in
  let d := z - inject_Z f in
  match Qcompare d (1 # 2) with
  | Lt => f
  | Gt => (f + 1)%Z
  | Eq => if Z.even f then f else (f + 1)%Z
  end.

(** [round(x, 2)]. *)
Definition round2 (x : Q) : Q := round_half_even (x * 100) # 100.

(** Python's [max(a, b)] keeps [a] unless [b] is strictly greater;
    [min(a, b)] keeps [a] unless [b] is strictly smaller. *)
Definition py_max (a b : Q) : Q := if Qle_bool b a then a else b.
Definition py_min (a b : Q) : Q := if Qle_bool a b then a else b.

(** [random.uniform(a, b)] at the unit draw [u]. *)
Definition uniform (a b u : Q) : Q := a + (b - a) * u.

(** A unit draw of [random.random()]; the closed interval also covers
    the endpoint that floating point rounding may reach. *)
Definition unit_draw (u : Q) : Prop := 0 <= u /\ u <= 1.

Definition valid_stream (s : list Q) : Prop := Forall unit_draw s.

(* ------------------------------------------------------------------ *)
(** ** Exceptions and the generator monad *)

Inductive exc : Type :=
| KeyError
| ZeroDivisionError
| OSError
| DatabaseError.

(** A generator threads the pseudo-random stream and may raise. *)
Inductive result (A : Type) : Type :=
| Ok : A -> list Q -> result A
| Err : exc -> result A.
Arguments Ok {A} _ _.
Arguments Err {A} _.

Definition M (A : Type) : Type := list Q -> result A.

Definition ret {A} (a : A) : M A := fun s => Ok a s.
Definition bind {A B} (m : M A) (k : A -> M B) : M B :=
  fun s => match m s with
           | Ok a s' => k a s'
           | Err e => Err e
           end.
Definition raise {A} (e : exc) : M A := fun _ => Err e.

Notation "x <- c1 ;; c2" := (bind c1 (fun x => c2))
  (at level 61, c1 at next level, right associativity).

(** [random.random()]: the next draw (the stream of a real run is
    unbounded; past the end of the modelled prefix it reads 0). *)
Definition random_ : M Q :=
  fun s => match s with
           | [] => Ok 0 []
           | u :: s' => Ok u s'
           end.

Definition random_uniform (a b : Q) : M Q :=
  u <- random_ ;; ret (uniform a b u).

(** [a / b] on Python floats raises on a zero divisor. *)
Definition py_div (a b : Q) : M Q :=
  if Qeq_bool b 0 then raise ZeroDivisionError else ret (a / b).

(** Dictionary lookup [d[k]] with string keys. *)
Fixpoint dict_get {V} (d : list (string * V)) (k : string) : M V :=
  match d with
  | [] => raise KeyError
  | (k', v) :: d' => if String.eqb k k' then ret v else dict_get d' k
  end.

(** [for x in xs: body(x)] collecting the rows each iteration appends. *)
Fixpoint for_each {A B} (xs : list A) (body : A -> M (list B)) : M (list B) :=
  match xs with
  | [] => ret []
  | x :: xs' =>
      r <- body x ;;
      rs <- for_each xs' body ;;
      ret (r ++ rs)
  end.

(** [range(lo, hi)] on years. *)
Definition py_range (lo hi : Z) : list Z :=
  map (fun n => (lo + Z.of_nat n)%Z) (seq 0 (Z.to_nat (hi - lo))).

(* ------------------------------------------------------------------ *)
(** ** Country catalog ([load_country_metadata]) *)

Record country : Type := mkCountry {
  country_code : string;
  country_name : string;
  region : string;
  income_group : string
}.

Definition HI := "High income"%string.
Definition UMI := "Upper middle income"%string.
Definition LMI := "Lower middle income"%string.
Definition LI := "Low income"%string.

Definition NA := "North America"%string.
Definition ECA := "Europe & Central Asia"%string.
Definition EAP := "East Asia & Pacific"%string.
Definition SA := "South Asia"%string.
Definition LAC := "Latin America & Caribbean"%string.
Definition SSA := "Sub-Saharan Africa"%string.
Definition MENA := "Middle East & North Africa"%string.

(** The four parallel columns of [countries_data]. *)
Definition codes : list string :=
  ["USA"; "GBR"; "DEU"; "FRA"; "JPN"; "CHN"; "IND"; "BRA";
   "ZAF"; "NGA"; "KEN"; "ETH"; "MEX"; "ARG"; "CHL"; "POL";
   "CZE"; "HUN"; "RUS"; "TUR"; "IDN"; "THA"; "VNM"; "PHL";
   "EGY"; "MAR"; "GHA"; "TZA"; "UGA"; "RWA"; "SWE"; "NOR";
   "DNK"; "FIN"; "NLD"; "BEL"; "AUT"; "CHE"; "ITA"; "ESP";
   "PRT"; "GRC"; "CAN"; "AUS"; "NZL"; "KOR"; "SGP"; "MYS"]%string.

Definition names : list string :=
  ["United States"; "United Kingdom"; "Germany"; "France"; "Japan";
   "China"; "India"; "Brazil"; "South Africa"; "Nigeria";
   "Kenya"; "Ethiopia"; "Mexico"; "Argentina"; "Chile";
   "Poland"; "Czech Republic"; "Hungary"; "Russia"; "Turkey";
   "Indonesia"; "Thailand"; "Vietnam"; "Philippines";
   "Egypt"; "Morocco"; "Ghana"; "Tanzania"; "Uganda"; "Rwanda";
   "Sweden"; "Norway"; "Denmark"; "Finland"; "Netherlands";
   "Belgium"; "Austria"; "Switzerland"; "Italy"; "Spain";
   "Portugal"; "Greece"; "Canada"; "Australia"; "New Zealand";
   "South Korea"; "Singapore"; "Malaysia"]%string.

Definition regions : list string :=
  [NA; ECA; ECA;
   ECA; EAP; EAP;
   SA; LAC; SSA;
   SSA; SSA; SSA;
   LAC; LAC;
   LAC; ECA;
   ECA; ECA; ECA;
   ECA; EAP; EAP;
   EAP; EAP; MENA;
   MENA; SSA; SSA;
   SSA; SSA; ECA;
   ECA; ECA; ECA;
   ECA; ECA; ECA;
   ECA; ECA; ECA;
   ECA; ECA; NA;
   EAP; EAP; EAP;
   EAP; EAP].

Definition income_groups : list string :=
  [HI; HI; HI; HI; HI;
   UMI; LMI; UMI;
   UMI; LMI; LMI;
   LI; UMI; UMI;
   HI; HI; HI; HI;
   UMI; UMI; UMI;
   UMI; LMI; LMI;
   LMI; LMI; LMI;
   LMI; LI; LI; HI;
   HI; HI; HI; HI;
   HI; HI; HI; HI;
   HI; HI; HI; HI;
   HI; HI; HI; HI;
   UMI].

(** Rows of [pd.DataFrame(countries_data)]: the columns zipped. *)
Fixpoint zip4 (a b c d : list string) : list country :=
  match a, b, c, d with
  | x :: a', y :: b', z :: c', w :: d' => mkCountry x y z w :: zip4 a' b' c' d'
  | _, _, _, _ => []
  end.

Definition countries : list country := zip4 codes names regions income_groups.

Definition is_high_income (c : country) : bool := String.eqb (income_group c) HI.

(* ------------------------------------------------------------------ *)
(** ** GDP generator ([load_gdp_data]) *)

Record gdp_row : Type := mkGdpRow {
  gdp_country : string;
  gdp_year : Z;
  gdp_per_capita_current_usd : Q;
  gdp_growth_annual_pct : Q
}.

Definition gdp_ranges : list (string * (Q * Q)) :=
  [(HI, (40000, 80000)); (UMI, (8000, 20000));
   (LMI, (2000, 8000)); (LI, (500, 2000))].

(** The per-year growth draw of the [if/elif/else] chain. *)
Definition group_growth (ig : string) : M Q :=
  if String.eqb ig HI then random_uniform 1 3
  else if String.eqb ig UMI then random_uniform 3 7
  else if String.eqb ig LMI then random_uniform 4 8
  else random_uniform 3 6.

(** [gdp = base_gdp * ((1 + growth/100) ** years_since_base)] *)
Definition gdp_value (base_gdp growth : Q) (year : Z) : Q :=
  base_gdp * Qpower (1 + growth / 100) (year - 2015).

Definition gdp_year_step (code ig : string) (base_gdp : Q) (year : Z)
  : M (list gdp_row) :=
  growth <- group_growth ig ;;
  growth <- (if Z.eqb year 2020 then random_uniform (-5) (-2) else ret growth) ;;
  ret [mkGdpRow code year (round2 (gdp_value base_gdp growth year)) (round2 growth)].

Definition gdp_country_rows (c : country) : M (list gdp_row) :=
  rng <- dict_get gdp_ranges (income_group c) ;;
  base_gdp <- random_uniform (fst rng) (snd rng) ;;
  for_each (py_range 2015 2024) (gdp_year_step (country_code c) (income_group c) base_gdp).

Definition load_gdp_data (cs : list country) : M (list gdp_row) :=
  for_each cs gdp_country_rows.

(* ------------------------------------------------------------------ *)
(** ** Inequality generator ([load_inequality_data]) *)

Record ineq_row : Type := mkIneqRow {
  ineq_country : string;
  ineq_year : Z;
  gini_coefficient : Q;
  income_share_lowest_20pct : Q;
  income_share_highest_20pct : Q;
  palma_ratio : Q
}.

Definition gini_ranges : list (string * (Q * Q)) :=
  [(LAC, (45, 55)); (SSA, (40, 65)); (MENA, (35, 42)); (SA, (32, 38));
   (EAP, (30, 45)); (ECA, (25, 38)); (NA, (38, 42))].

Definition survey_years : list Z := [2015; 2017; 2019; 2021; 2023]%Z.

Definition ineq_year_step (code : string) (base_gini : Q) (year : Z)
  : M (list ineq_row) :=
  noise <- random_uniform (-3) 3 ;;
  let gini := py_max 20 (py_min 70 (base_gini + noise)) in
  lowest_20 <- random_uniform 4 9 ;;
  highest_20 <- random_uniform 40 55 ;;
  q <- py_div highest_20 (lowest_20 * 2) ;;
  let palma := round2 q in
  ret [mkIneqRow code year (round2 gini) (round2 lowest_20) (round2 highest_20) palma].

Definition ineq_country_rows (c : country) : M (list ineq_row) :=
  rng <- dict_get gini_ranges (region c) ;;
  base_gini <- random_uniform (fst rng) (snd rng) ;;
  for_each survey_years (ineq_year_step (country_code c) base_gini).

Definition load_inequality_data (cs : list country) : M (list ineq_row) :=
  for_each cs ineq_country_rows.

(* ------------------------------------------------------------------ *)
(** ** Poverty generator ([load_poverty_data]) *)

Record poverty_row : Type := mkPovRow {
  pov_country : string;
  pov_year : Z;
  poverty_headcount_215_pct : Q;
  poverty_headcount_365_pct : Q;
  poverty_headcount_685_pct : Q
}.

(** [reduction_factor = 1 - ((year - 2015) / 8 * 0.15)] *)
Definition reduction_factor (year : Z) : Q :=
  1 - (inject_Z (year - 2015) / 8 * (15 # 100)).

Definition poverty_record (code : string) (b215 b365 b685 : Q) (year : Z)
  : poverty_row :=
  let f := reduction_factor year in
  mkPovRow code year (round2 (b215 * f)) (round2 (b365 * f)) (round2 (b685 * f)).

Definition poverty_bases (ig : string) : M (Q * Q * Q) :=
  if String.eqb ig LI then
    b215 <- random_uniform 40 70 ;; b365 <- random_uniform 60 85 ;;
    b685 <- random_uniform 75 95 ;; ret (b215, b365, b685)
  else if String.eqb ig LMI then
    b215 <- random_uniform 10 40 ;; b365 <- random_uniform 25 60 ;;
    b685 <- random_uniform 50 80 ;; ret (b215, b365, b685)
  else
    b215 <- random_uniform 1 15 ;; b365 <- random_uniform 5 30 ;;
    b685 <- random_uniform 15 50 ;; ret (b215, b365, b685).

(** [income_group in ['Low income', 'Lower middle income', 'Upper middle income']] *)
Definition has_poverty_data (ig : string) : bool :=
  existsb (String.eqb ig) [LI; LMI; UMI].

Definition pov_country_rows (c : country) : M (list poverty_row) :=
  if has_poverty_data (income_group c) then
    bs <- poverty_bases (income_group c) ;;
    let '(b215, b365, b685) := bs in
    for_each survey_years
      (fun year => ret [poverty_record (country_code c) b215 b365 b685 year])
  else ret [].

Definition load_poverty_data (cs : list country) : M (list poverty_row) :=
  for_each cs pov_country_rows.

(* ------------------------------------------------------------------ *)
(** ** Trade and education generator ([load_trade_education]) *)

Record trade_row : Type := mkTradeRow {
  trade_country : string;
  trade_year : Z;
  trade_pct_gdp : Q;
  secondary_enrollment_rate : Q;
  tertiary_enrollment_rate : Q;
  government_expenditure_education_pct : Q
}.

Definition education_bases (ig : string) : M (Q * Q * Q) :=
  if String.eqb ig HI then
    s <- random_uniform 95 105 ;; t <- random_uniform 60 90 ;;
    g <- random_uniform 4 6 ;; ret (s, t, g)
  else if String.eqb ig UMI then
    s <- random_uniform 75 95 ;; t <- random_uniform 30 60 ;;
    g <- random_uniform (35 # 10) (55 # 10) ;; ret (s, t, g)
  else if String.eqb ig LMI then
    s <- random_uniform 50 80 ;; t <- random_uniform 15 40 ;;
    g <- random_uniform 3 5 ;; ret (s, t, g)
  else
    s <- random_uniform 30 60 ;; t <- random_uniform 5 20 ;;
    g <- random_uniform 2 4 ;; ret (s, t, g).

(** One row; the dict literal evaluates its values left to right, so the
    trade noise is drawn before the expenditure noise. *)
Definition trade_year_step (code : string) (base_trade sec ter gov : Q) (year : Z)
  : M (list trade_row) :=
  let years_since_2015 := inject_Z (year - 2015) in
  let sec_improvement := sec + years_since_2015 * (1 # 2) in
  let ter_improvement := ter + years_since_2015 * (3 # 10) in
  trade_noise <- random_uniform (-10) 10 ;;
  gov_noise <- random_uniform (-1 # 2) (1 # 2) ;;
  ret [mkTradeRow code year (round2 (base_trade + trade_noise))
         (round2 (py_min 105 sec_improvement)) (round2 ter_improvement)
         (round2 (gov + gov_noise))].

Definition trade_country_rows (c : country) : M (list trade_row) :=
  base_trade <- random_uniform 40 150 ;;
  bs <- education_bases (income_group c) ;;
  let '(sec, ter, gov) := bs in
  for_each (py_range 2015 2024) (trade_year_step (country_code c) base_trade sec ter gov).

Definition load_trade_education (cs : list country) : M (list trade_row) :=
  for_each cs trade_country_rows.

(* ------------------------------------------------------------------ *)
(** ** Database, console and the run ([main]) *)

Inductive any_row : Type :=
| CountryRow : country -> any_row
| GdpRow : gdp_row -> any_row
| IneqRow : ineq_row -> any_row
| PovRow : poverty_row -> any_row
| TradeRow : trade_row -> any_row.

(** The SQLite file: table name to its rows, if the table exists. *)
Definition db : Type := string -> option (list any_row).

Definition db_set (d : db) (t : string) (rows : list any_row) : db :=
  fun t' => if String.eqb t' t then Some rows else d t'.

(** Console output of the run (the messages the claims talk about). *)
Inductive event : Type :=
| EvPrint : string -> event
| EvLoaded : string -> nat -> event
| EvCount : string -> nat -> event
| EvError : exc -> event
| EvTraceback : event
| EvClose : event.

Record world : Type := mkWorld {
  w_db : db;
  w_rng : list Q;
  w_out : list event;
  w_conn_open : bool
}.

(** The collaborators outside [load_data.py]: the file [schema.sql], the
    effect of [conn.executescript] on it, and whether a [to_sql] or a
    [read_sql] raises (locked or full database, missing table). *)
Record env : Type := mkEnv {
  schema_file : option string;
  executescript : string -> db -> db * bool;
  write_fails : string -> db -> bool
}.

Definition IO (A : Type) : Type := world -> (exc + A) * world.

Definition io_ret {A} (a : A) : IO A := fun w => (inr a, w).
Definition io_bind {A B} (m : IO A) (k : A -> IO B) : IO B :=
  fun w => match m w with
           | (inr a, w') => k a w'
           | (inl e, w') => (inl e, w')
           end.
Definition io_raise {A} (e : exc) : IO A := fun w => (inl e, w).

Notation "x <-- c1 ;;; c2" := (io_bind c1 (fun x => c2))
  (at level 61, c1 at next level, right associativity).
Notation "c1 ;;;; c2" := (io_bind c1 (fun _ => c2))
  (at level 61, right associativity).

Definition emit (ev : event) : IO unit :=
  fun w => (inr tt, mkWorld (w_db w) (w_rng w) (w_out w ++ [ev]) (w_conn_open w)).

Definition say (msg : string) : IO unit := emit (EvPrint msg).

(** Run a generator on the process-wide pseudo-random stream. *)
Definition sample {A} (m : M A) : IO A :=
  fun w => match m (w_rng w) with
           | Ok a s' => (inr a, mkWorld (w_db w) s' (w_out w) (w_conn_open w))
           | Err e => (inl e, w)
           end.

Section Run.
Variable E : env.

(** [df.to_sql(table, conn, if_exists='replace', index=False)] *)
Definition to_sql_replace (table : string) (rows : list any_row) : IO unit :=
  fun w => if write_fails E table (w_db w) then (inl DatabaseError, w)
           else (inr tt, mkWorld (db_set (w_db w) table rows) (w_rng w)
                                 (w_out w) (w_conn_open w)).

(** [pd.read_sql("SELECT COUNT(*) ...")] *)
Definition count_rows (table : string) : IO nat :=
  fun w => match w_db w table with
           | Some rows => (inr (List.length rows), w)
           | None => (inl DatabaseError, w)
           end.

(** [with open('schema.sql') as f: conn.executescript(f.read())] *)
Definition run_schema : IO unit :=
  fun w => match schema_file E with
           | None => (inl OSError, w)
           | Some text =>
               let '(d', failed) := executescript E text (w_db w) in
               let w' := mkWorld d' (w_rng w) (w_out w) (w_conn_open w) in
               if failed then (inl DatabaseError, w') else (inr tt, w')
           end.

Definition msg_country := "Loading country metadata..."%string.
Definition msg_gdp := "Creating GDP data..."%string.
Definition msg_ineq := "Creating inequality data..."%string.
Definition msg_pov := "Creating poverty data..."%string.
Definition msg_trade := "Creating trade and education data..."%string.
Definition msg_schema := "Creating database schema..."%string.

Definition io_load_country_metadata : IO (list country) :=
  say msg_country ;;;;
  to_sql_replace "country_metadata" (map CountryRow countries) ;;;;
  emit (EvLoaded "country_metadata" (List.length countries)) ;;;;
  io_ret countries.

Definition io_load_gdp_data (cs : list country) : IO unit :=
  say msg_gdp ;;;;
  rows <-- sample (load_gdp_data cs) ;;;
  to_sql_replace "gdp_data" (map GdpRow rows) ;;;;
  emit (EvLoaded "gdp_data" (List.length rows)).

Definition io_load_inequality_data (cs : list country) : IO unit :=
  say msg_ineq ;;;;
  rows <-- sample (load_inequality_data cs) ;;;
  to_sql_replace "inequality_metrics" (map IneqRow rows) ;;;;
  emit (EvLoaded "inequality_metrics" (List.length rows)).

Definition io_load_poverty_data (cs : list country) : IO unit :=
  say msg_pov ;;;;
  rows <-- sample (load_poverty_data cs) ;;;
  to_sql_replace "poverty_indicators" (map PovRow rows) ;;;;
  emit (EvLoaded "poverty_indicators" (List.length rows)).

Definition io_load_trade_education (cs : list country) : IO unit :=
  say msg_trade ;;;;
  rows <-- sample (load_trade_education cs) ;;;
  to_sql_replace "trade_education" (map TradeRow rows) ;;;;
  emit (EvLoaded "trade_education" (List.length rows)).

Definition tables : list string :=
  ["country_metadata"; "gdp_data"; "inequality_metrics";
   "poverty_indicators"; "trade_education"]%string.

Fixpoint report_counts (ts : list string) : IO unit :=
  match ts with
  | [] => io_ret tt
  | t :: ts' => n <-- count_rows t ;;; emit (EvCount t n) ;;;; report_counts ts'
  end.

(** The body of the [try] block. *)
Definition try_body : IO unit :=
  say msg_schema ;;;;
  run_schema ;;;;
  say "Schema created" ;;;;
  cs <-- io_load_country_metadata ;;;
  io_load_gdp_data cs ;;;;
  io_load_inequality_data cs ;;;;
  io_load_poverty_data cs ;;;;
  io_load_trade_education cs ;;;;
  say "DATA LOADING SUMMARY" ;;;;
  report_counts tables ;;;;
  say "Database successfully created".

(** [except Exception as e: print(...); traceback.print_exc()] *)
Definition handler (e : exc) : IO unit := emit (EvError e) ;;;; emit EvTraceback.

Definition connect (w : world) : world :=
  mkWorld (w_db w) (w_rng w) (w_out w) true.

Definition close (w : world) : world :=
  mkWorld (w_db w) (w_rng w) (w_out w ++ [EvClose]) false.

(** [main()]: banner, connect, [try] / [except] / [finally: conn.close()].
    Returns the exception the body raised, if any, with the final world. *)
Definition main (w : world) : option exc * world :=
  let w0 := snd (say "BASIC GLOBAL INEQUALITY DATABASE LOADER" w) in
  let w1 := connect w0 in
  match try_body w1 with
  | (inr _, w2) => (None, close w2)
  | (inl e, w2) => (Some e, close (snd (handler e w2)))
  end.

End Run.

(* ================================================================== *)
(** * Properties *)

(** ** Rounding *)

Lemma floor_bounds (z : Q) :
  inject_Z (Qfloor z) <= z /\ z < inject_Z (Qfloor z) + 1.
Proof.
  split; [apply Qfloor_le |].
  pose proof (Qlt_floor z) as H. rewrite inject_Z_plus in H. exact H.
Qed.

Lemma round_half_even_cases (z : Q) :
  round_half_even z = Qfloor z \/ round_half_even z = (Qfloor z + 1)%Z.
Proof.
  unfold round_half_even.
  destruct (_ ?= _); [destruct (Z.even _)| |]; auto.
Qed.

Lemma round_half_even_bounds (z : Q) :
  z - (1 # 2) <= inject_Z (round_half_even z) /\
  inject_Z (round_half_even z) <= z + (1 # 2).
Proof.
  pose proof (floor_bounds z) as [Hf1 Hf2].
  unfold round_half_even.
  destruct (Qcompare_spec (z - inject_Z (Qfloor z)) (1 # 2)) as [H|H|H];
    [destruct (Z.even (Qfloor z))| |];
    rewrite ?inject_Z_plus; change (inject_Z 1) with 1; split; lra.
Qed.

Lemma round_half_even_ge (n : Z) (z : Q) :
  inject_Z n <= z -> (n <= round_half_even z)%Z.
Proof.
  intros H. pose proof (Qfloor_resp_le _ _ H) as Hf. rewrite Qfloor_Z in Hf.
  destruct (round_half_even_cases z) as [E|E]; rewrite E; lia.
Qed.

Lemma round_half_even_le (n : Z) (z : Q) :
  z <= inject_Z n -> (round_half_even z <= n)%Z.
Proof.
  intros H. pose proof (Qfloor_resp_le _ _ H) as Hf. rewrite Qfloor_Z in Hf.
  pose proof (floor_bounds z) as [Hf1 Hf2].
  destruct (Z.eq_dec (Qfloor z) n) as [Heq|Hne].
  - (* z is then the integer n itself, far from any tie *)
    unfold round_half_even.
    assert (Hd : z - inject_Z (Qfloor z) < 1 # 2).
    { rewrite Heq in *. lra. }
    destruct (Qcompare_spec (z - inject_Z (Qfloor z)) (1 # 2)) as [H1|H1|H1];
      [lra | lia | lra].
  - destruct (round_half_even_cases z) as [E|E]; rewrite E; lia.
Qed.

Lemma round_half_even_mono (z1 z2 : Q) :
  z1 <= z2 -> (round_half_even z1 <= round_half_even z2)%Z.
Proof.
  intros H. pose proof (Qfloor_resp_le _ _ H) as Hf.
  destruct (Z.eq_dec (Qfloor z1) (Qfloor z2)) as [Heq|Hne].
  - unfold round_half_even. rewrite <- Heq.
    assert (Hd : z1 - inject_Z (Qfloor z1) <= z2 - inject_Z (Qfloor z1)) by lra.
    destruct (Qcompare_spec (z1 - inject_Z (Qfloor z1)) (1 # 2)) as [H1|H1|H1];
    destruct (Qcompare_spec (z2 - inject_Z (Qfloor z1)) (1 # 2)) as [H2|H2|H2];
    try (destruct (Z.even (Qfloor z1))); try lia; lra.
  - destruct (round_half_even_cases z1) as [E1|E1];
    destruct (round_half_even_cases z2) as [E2|E2]; rewrite E1, E2; lia.
Qed.

Lemma round2_eq (x : Q) :
  round2 x == inject_Z (round_half_even (x * 100)) * (1 # 100).
Proof. unfold round2, Qeq. simpl. lia. Qed.

Lemma round2_close (x : Q) :
  x - (1 # 200) <= round2 x /\ round2 x <= x + (1 # 200).
Proof.
  pose proof (round2_eq x). pose proof (round_half_even_bounds (x * 100)) as [H1 H2].
  split; lra.
Qed.

Lemma round2_ge (k : Z) (x : Q) : (k # 100) <= x -> (k # 100) <= round2 x.
Proof.
  intros H. unfold round2. apply Zmult_le_compat_r; [|lia].
  apply round_half_even_ge. simpl Qnum.
  assert (Hk : (k # 100) == inject_Z k * (1 # 100)) by (unfold Qeq; simpl; lia).
  lra.
Qed.

Lemma round2_le (k : Z) (x : Q) : x <= (k # 100) -> round2 x <= (k # 100).
Proof.
  intros H. unfold round2. apply Zmult_le_compat_r; [|lia].
  apply round_half_even_le. simpl Qnum.
  assert (Hk : (k # 100) == inject_Z k * (1 # 100)) by (unfold Qeq; simpl; lia).
  lra.
Qed.

Lemma round2_mono (x y : Q) : x <= y -> round2 x <= round2 y.
Proof.
  intros H. unfold round2. apply Zmult_le_compat_r; [|lia].
  apply round_half_even_mono. lra.
Qed.

Lemma round2_compat (x y : Q) : x == y -> round2 x = round2 y.
Proof.
  intros H. unfold round2, round_half_even.
  assert (Hf : Qfloor (x * 100) = Qfloor (y * 100)) by (apply Qfloor_comp; rewrite H; reflexivity).
  rewrite Hf.
  destruct (Qcompare_spec (x * 100 - inject_Z (Qfloor (y * 100))) (1 # 2)) as [H1|H1|H1];
  destruct (Qcompare_spec (y * 100 - inject_Z (Qfloor (y * 100))) (1 # 2)) as [H2|H2|H2];
  try reflexivity; exfalso; rewrite H in H1; lra.
Qed.

Lemma uniform_range (a b u : Q) :
  a <= b -> unit_draw u -> a <= uniform a b u /\ uniform a b u <= b.
Proof.
  intros Hab [H0 H1]. unfold uniform.
  assert (0 <= (b - a) * u) by (apply Qmult_le_0_compat; lra).
  assert (0 <= (b - a) * (1 - u)) by (apply Qmult_le_0_compat; lra).
  split; [lra|]. assert (Hm : (b - a) * (1 - u) == (b - a) - (b - a) * u) by ring.
  lra.
Qed.

(** ** A Hoare logic for the generators

    [sound I m P]: from every stream satisfying [I], [m] returns (raises
    nothing) a value satisfying [P] and leaves a stream satisfying [I]. *)

Definition sound {A} (I : list Q -> Prop) (m : M A) (P : A -> Prop) : Prop :=
  forall s, I s -> exists a s', m s = Ok a s' /\ I s' /\ P a.

Definition any_stream : list Q -> Prop := fun _ => True.

Section Hoare.
Variable I : list Q -> Prop.

Lemma sound_ret {A} (a : A) (P : A -> Prop) : P a -> sound I (ret a) P.
Proof. intros HP s Hs. exists a, s. auto. Qed.

Lemma sound_bind {A B} (m : M A) (k : A -> M B) (P : A -> Prop) (Q' : B -> Prop) :
  sound I m P -> (forall a, P a -> sound I (k a) Q') -> sound I (bind m k) Q'.
Proof.
  intros Hm Hk s Hs. destruct (Hm s Hs) as (a & s1 & E1 & Hs1 & Ha).
  destruct (Hk a Ha s1 Hs1) as (b & s2 & E2 & Hs2 & Hb).
  exists b, s2. unfold bind. rewrite E1. auto.
Qed.

Lemma sound_weaken {A} (m : M A) (P P' : A -> Prop) :
  sound I m P -> (forall a, P a -> P' a) -> sound I m P'.
Proof.
  intros Hm HP s Hs. destruct (Hm s Hs) as (a & s' & E & Hs' & Ha). eauto 6.
Qed.

Lemma sound_for_each {A B} (xs : list A) (body : A -> M (list B))
      (P : A -> list B -> Prop) :
  (forall x, In x xs -> sound I (body x) (P x)) ->
  sound I (for_each xs body)
        (fun rs => exists bs, rs = List.concat bs /\ Forall2 P xs bs).
Proof.
  induction xs as [|x xs IH]; intros Hb; simpl.
  - apply sound_ret. exists []. auto.
  - apply sound_bind with (P := P x); [apply Hb; left; reflexivity|].
    intros r Hr. apply sound_bind with (P := fun rs => exists bs, rs = List.concat bs /\ Forall2 P xs bs).
    + apply IH. intros y Hy. apply Hb. right. exact Hy.
    + intros rs (bs & -> & Hbs). apply sound_ret. exists (r :: bs). auto.
Qed.

End Hoare.

Lemma sound_uniform (a b : Q) :
  a <= b -> sound valid_stream (random_uniform a b)
                  (fun v => exists u, unit_draw u /\ v = uniform a b u).
Proof.
  intros Hab s Hs. unfold random_uniform, bind, random_, ret.
  destruct s as [|u s'].
  - exists (uniform a b 0), []. repeat split; [constructor|].
    exists 0. split; [split; lra | reflexivity].
  - inversion Hs; subst. exists (uniform a b u), s'. eauto.
Qed.

Lemma sound_uniform_range (a b : Q) :
  a <= b -> sound valid_stream (random_uniform a b) (fun v => a <= v /\ v <= b).
Proof.
  intros Hab. eapply sound_weaken; [apply sound_uniform, Hab|].
  intros v (u & Hu & ->). apply uniform_range; assumption.
Qed.

Lemma sound_uniform_any (a b : Q) :
  sound any_stream (random_uniform a b) (fun v => exists u, v = uniform a b u).
Proof.
  intros s _. unfold random_uniform, bind, random_, ret.
  destruct s as [|u s']; eexists _, _; repeat split; eexists; reflexivity.
Qed.

Lemma Forall2_concat_length {A B} (k : A -> nat) (xs : list A) (bs : list (list B)) :
  Forall2 (fun x b => List.length b = k x) xs bs ->
  List.length (List.concat bs) = list_sum (map k xs).
Proof.
  induction 1; simpl; [reflexivity|]. rewrite length_app. lia.
Qed.

Lemma Forall2_concat_in {A B} (P : A -> list B -> Prop) xs bs r :
  Forall2 P xs bs -> In r (List.concat bs) ->
  exists x b, In x xs /\ In r b /\ P x b.
Proof.
  induction 1 as [|x b xs bs Hxb _ IH]; simpl; [tauto|].
  intros Hin. apply in_app_or in Hin as [Hin|Hin].
  - exists x, b. auto.
  - destruct (IH Hin) as (x' & b' & ? & ? & ?). exists x', b'. auto.
Qed.

Lemma py_div_nonzero (a b : Q) : ~ b == 0 -> py_div a b = ret (a / b).
Proof.
  intros H. unfold py_div. destruct (Qeq_bool b 0) eqn:E; [|reflexivity].
  apply Qeq_bool_iff in E. contradiction.
Qed.

Lemma py_max_ge (a b : Q) : a <= py_max a b.
Proof.
  unfold py_max. destruct (Qle_bool b a) eqn:E; [lra|].
  apply Bool.not_true_iff_false in E. rewrite Qle_bool_iff in E. lra.
Qed.

Lemma py_max_le (a b c : Q) : a <= c -> b <= c -> py_max a b <= c.
Proof. unfold py_max. destruct (Qle_bool b a); auto. Qed.

Lemma py_min_le (a b : Q) : py_min a b <= a.
Proof.
  unfold py_min. destruct (Qle_bool a b) eqn:E; [lra|].
  apply Bool.not_true_iff_false in E. rewrite Qle_bool_iff in E. lra.
Qed.

(** ** The catalog *)

Definition income_group_names : list string := [HI; UMI; LMI; LI].

Lemma catalog_income_groups (c : country) :
  In c countries -> In (income_group c) income_group_names.
Proof.
  intros Hc.
  assert (B : forallb (fun c => existsb (String.eqb (income_group c)) income_group_names)
                      countries = true) by reflexivity.
  rewrite forallb_forall in B. specialize (B c Hc).
  apply existsb_exists in B as (g & Hg & E). apply String.eqb_eq in E. congruence.
Qed.

Lemma catalog_regions (c : country) :
  In c countries -> In (region c) (map fst gini_ranges).
Proof.
  intros Hc.
  assert (B : forallb (fun c => existsb (String.eqb (region c)) (map fst gini_ranges))
                      countries = true) by reflexivity.
  rewrite forallb_forall in B. specialize (B c Hc).
  apply existsb_exists in B as (g & Hg & E). apply String.eqb_eq in E. congruence.
Qed.

Lemma catalog_codes_nodup : NoDup (map country_code countries).
Proof. vm_compute. repeat constructor; simpl; intuition discriminate. Qed.

Lemma gini_range_of (rg : string) :
  In rg (map fst gini_ranges) ->
  exists lo hi, dict_get gini_ranges rg = ret (lo, hi) /\ lo <= hi.
Proof.
  simpl. intros H; repeat destruct H as [<-|H]; try contradiction;
    eexists _, _; split; try reflexivity; lra.
Qed.

Lemma gdp_range_of (ig : string) :
  In ig income_group_names ->
  exists lo hi, dict_get gdp_ranges ig = ret (lo, hi) /\ In (ig, (lo, hi)) gdp_ranges
                /\ lo <= hi.
Proof.
  simpl. intros H; repeat destruct H as [<-|H]; try contradiction.
  all: eexists _, _; split; [reflexivity|]; split; [simpl; tauto | lra].
Qed.

(** ** Inequality records *)

Definition ineq_record_ok (code : string) (year : Z) (r : ineq_row) : Prop :=
  ineq_country r = code /\ ineq_year r = year /\
  20 <= gini_coefficient r /\ gini_coefficient r <= 70 /\
  exists lowest_20 highest_20,
    4 <= lowest_20 /\ lowest_20 <= 9 /\ 40 <= highest_20 /\ highest_20 <= 55 /\
    income_share_lowest_20pct r = round2 lowest_20 /\
    income_share_highest_20pct r = round2 highest_20 /\
    palma_ratio r = round2 (highest_20 / (2 * lowest_20)).

Lemma ineq_year_step_sound (code : string) (base_gini : Q) (year : Z) :
  sound valid_stream (ineq_year_step code base_gini year)
        (fun rows => exists r, rows = [r] /\ ineq_record_ok code year r).
Proof.
  unfold ineq_year_step.
  apply sound_bind with (P := fun _ => True);
    [eapply sound_weaken; [apply sound_uniform_range; lra | auto] |].
  intros noise _.
  apply sound_bind with (P := fun v => 4 <= v /\ v <= 9); [apply sound_uniform_range; lra|].
  intros low Hlow.
  apply sound_bind with (P := fun v => 40 <= v /\ v <= 55); [apply sound_uniform_range; lra|].
  intros high Hhigh.
  rewrite py_div_nonzero by lra.
  apply sound_bind with (P := fun v => v = high / (low * 2)); [apply sound_ret; reflexivity|].
  intros q ->. apply sound_ret. eexists; split; [reflexivity|].
  set (g := py_max 20 (py_min 70 (base_gini + noise))).
  assert (Hg1 : 20 <= g) by apply py_max_ge.
  assert (Hg2 : g <= 70) by (apply py_max_le; [lra | apply py_min_le]).
  unfold ineq_record_ok; simpl. repeat split.
  - pose proof (round2_ge 2000 g). lra.
  - pose proof (round2_le 7000 g). lra.
  - exists low, high. repeat split; try lra.
    apply round2_compat. unfold Qdiv. rewrite (Qmult_comm low 2). reflexivity.
Qed.

Lemma ineq_country_rows_sound (c : country) :
  In (region c) (map fst gini_ranges) ->
  sound valid_stream (ineq_country_rows c)
        (fun rows => List.length rows = 5%nat /\
                     forall r, In r rows -> ineq_record_ok (country_code c) (ineq_year r) r).
Proof.
  intros Hrg. unfold ineq_country_rows.
  destruct (gini_range_of _ Hrg) as (lo & hi & -> & Hlh).
  apply sound_bind with (P := fun rng => rng = (lo, hi)); [apply sound_ret; reflexivity|].
  intros rng ->. simpl fst; simpl snd.
  apply sound_bind with (P := fun _ => True);
    [eapply sound_weaken; [apply sound_uniform_range; exact Hlh | auto]|].
  intros base _.
  eapply sound_weaken; [apply sound_for_each; intros y _; apply ineq_year_step_sound|].
  intros rows (bs & -> & Hbs). split.
  { rewrite (Forall2_concat_length (fun _ : Z => 1%nat) survey_years bs); [reflexivity|].
    eapply Forall2_impl; [|exact Hbs]. intros y b (r & -> & _). reflexivity. }
  intros r Hr.
  destruct (Forall2_concat_in _ _ _ _ Hbs Hr) as (y & b & _ & Hrb & r' & -> & Hok).
  destruct Hrb as [<-|[]]. unfold ineq_record_ok in *.
  destruct Hok as (H1 & H2 & H3). rewrite H2. auto.
Qed.

Lemma sound_for_each_rows {A B} (I : list Q -> Prop) (xs : list A)
      (body : A -> M (list B)) (Q' : A -> B -> Prop) :
  (forall x, In x xs -> sound I (body x) (fun rows => forall r, In r rows -> Q' x r)) ->
  sound I (for_each xs body) (fun rows => forall r, In r rows -> exists x, In x xs /\ Q' x r).
Proof.
  intros Hb. eapply sound_weaken; [apply sound_for_each, Hb|].
  intros rows (bs & -> & Hbs) r Hr.
  destruct (Forall2_concat_in _ _ _ _ Hbs Hr) as (x & b & Hx & Hrb & Hok). eauto.
Qed.

(** C1 *)
(** Claim C1: every inequality record of a run has its stored Gini
    coefficient in [20, 70], and its stored Palma ratio is
    [round(high / (2 * low), 2)] of the unrounded lowest and highest 20%
    shares sampled for that same record (whose rounded values are the
    record's stored shares). *)
Theorem inequality_gini_bounded_palma_exact (s : list Q) :
  valid_stream s ->
  exists rows s', load_inequality_data countries s = Ok rows s' /\
    forall r, In r rows ->
      20 <= gini_coefficient r /\ gini_coefficient r <= 70 /\
      exists lowest_20 highest_20,
        4 <= lowest_20 /\ lowest_20 <= 9 /\ 40 <= highest_20 /\ highest_20 <= 55 /\
        income_share_lowest_20pct r = round2 lowest_20 /\
        income_share_highest_20pct r = round2 highest_20 /\
        palma_ratio r = round2 (highest_20 / (2 * lowest_20)).
Proof.
  intros Hs.
  assert (H : sound valid_stream (load_inequality_data countries)
            (fun rows => forall r, In r rows -> exists c, In c countries /\
               ineq_record_ok (country_code c) (ineq_year r) r)).
  { apply sound_for_each_rows. intros c Hc.
    eapply sound_weaken; [apply ineq_country_rows_sound, catalog_regions, Hc|].
    intros rows [_ Hr]. exact Hr. }
  destruct (H s Hs) as (rows & s' & E & _ & Hrows).
  exists rows, s'. split; [exact E|].
  intros r Hr. destruct (Hrows r Hr) as (c & _ & _ & _ & Hok). exact Hok.
Qed.

Lemma inequality_gini_bounded_palma_exact_witness :
  valid_stream [1 # 2; 0; 1] /\
  exists rows s', load_inequality_data countries [1 # 2; 0; 1] = Ok rows s' /\
    forall r, In r rows ->
      20 <= gini_coefficient r /\ gini_coefficient r <= 70 /\
      exists lowest_20 highest_20,
        4 <= lowest_20 /\ lowest_20 <= 9 /\ 40 <= highest_20 /\ highest_20 <= 55 /\
        income_share_lowest_20pct r = round2 lowest_20 /\
        income_share_highest_20pct r = round2 highest_20 /\
        palma_ratio r = round2 (highest_20 / (2 * lowest_20)).
Proof.
  assert (Hs : valid_stream [1 # 2; 0; 1])
    by (repeat constructor; unfold Qle; simpl; lia).
  split; [exact Hs | apply (inequality_gini_bounded_palma_exact _ Hs)].
Defined.

(** C10 *)
(** Claim C10: the Palma division is always defined: the lowest 20% share
    is drawn from [4, 9], so the divisor [lowest_20 * 2] is at least 8,
    and the inequality generator never raises (in particular never
    [ZeroDivisionError]) for any list of countries with known regions and
    any draws. *)
Theorem palma_divisor_nonzero (cs : list country) (s : list Q) :
  valid_stream s ->
  (forall c, In c cs -> In (region c) (map fst gini_ranges)) ->
  (forall u, unit_draw u -> 8 <= uniform 4 9 u * 2) /\
  (forall e, load_inequality_data cs s <> Err e) /\
  exists rows s', load_inequality_data cs s = Ok rows s'.
Proof.
  intros Hs Hcs. split.
  { intros u Hu. destruct (uniform_range 4 9 u) as [H1 H2]; [lra | exact Hu | lra]. }
  assert (H : sound valid_stream (load_inequality_data cs) (fun _ => True)).
  { eapply sound_weaken; [apply sound_for_each_rows with (Q' := fun _ _ => True)|].
    - intros c Hc. eapply sound_weaken; [apply ineq_country_rows_sound, Hcs, Hc|]. auto.
    - auto. }
  destruct (H s Hs) as (rows & s' & E & _). rewrite E.
  split; [discriminate | eauto].
Qed.

Lemma palma_divisor_nonzero_witness :
  valid_stream [] /\
  (forall c, In c countries -> In (region c) (map fst gini_ranges)) /\
  (forall u, unit_draw u -> 8 <= uniform 4 9 u * 2) /\
  (forall e, load_inequality_data countries [] <> Err e) /\
  exists rows s', load_inequality_data countries [] = Ok rows s'.
Proof.
  assert (Hs : valid_stream []) by constructor.
  split; [exact Hs|]. split; [exact catalog_regions|].
  apply (palma_divisor_nonzero countries [] Hs catalog_regions).
Defined.

(** ** GDP records *)

Lemma sound_uniform_any_value (a b : Q) :
  a <= b -> sound valid_stream (random_uniform a b) (fun _ => True).
Proof. intros Hab. eapply sound_weaken; [apply sound_uniform_range, Hab | auto]. Qed.

Lemma group_growth_sound (ig : string) : sound valid_stream (group_growth ig) (fun _ => True).
Proof.
  unfold group_growth.
  destruct (String.eqb ig HI); [|destruct (String.eqb ig UMI); [|destruct (String.eqb ig LMI)]];
    apply sound_uniform_any_value; lra.
Qed.

Definition gdp_record_ok (code : string) (base_gdp : Q) (r : gdp_row) : Prop :=
  gdp_country r = code /\
  exists growth,
    gdp_per_capita_current_usd r
      = round2 (base_gdp * Qpower (1 + growth / 100) (gdp_year r - 2015)) /\
    gdp_growth_annual_pct r = round2 growth /\
    (gdp_year r = 2020%Z -> -5 <= growth /\ growth <= -2).

Lemma gdp_year_step_sound (code ig : string) (base_gdp : Q) (year : Z) :
  sound valid_stream (gdp_year_step code ig base_gdp year)
        (fun rows => exists r, rows = [r] /\ gdp_year r = year /\ gdp_record_ok code base_gdp r).
Proof.
  unfold gdp_year_step.
  apply sound_bind with (P := fun _ => True); [apply group_growth_sound|].
  intros g0 _.
  destruct (Z.eqb year 2020) eqn:Ey.
  - apply Z.eqb_eq in Ey.
    apply sound_bind with (P := fun v => -5 <= v /\ v <= -2); [apply sound_uniform_range; lra|].
    intros g Hg. apply sound_ret. eexists; split; [reflexivity|].
    split; [reflexivity|]. split; [reflexivity|]. exists g. simpl. auto.
  - apply Z.eqb_neq in Ey.
    apply sound_bind with (P := fun v => v = g0); [apply sound_ret; reflexivity|].
    intros g ->. apply sound_ret. eexists; split; [reflexivity|].
    split; [reflexivity|]. split; [reflexivity|]. exists g0. simpl.
    repeat split; try reflexivity; intros; contradiction.
Qed.

Lemma gdp_country_rows_sound (c : country) :
  In (income_group c) income_group_names ->
  sound valid_stream (gdp_country_rows c)
        (fun rows => List.length rows = 9%nat /\
           exists lo hi base_gdp, In (income_group c, (lo, hi)) gdp_ranges /\
             lo <= base_gdp /\ base_gdp <= hi /\
             forall r, In r rows ->
               In (gdp_year r) (py_range 2015 2024) /\
               gdp_record_ok (country_code c) base_gdp r).
Proof.
  intros Hig. unfold gdp_country_rows.
  destruct (gdp_range_of _ Hig) as (lo & hi & -> & Hin & Hlh).
  apply sound_bind with (P := fun rng => rng = (lo, hi)); [apply sound_ret; reflexivity|].
  intros rng ->. simpl fst; simpl snd.
  apply sound_bind with (P := fun v => lo <= v /\ v <= hi); [apply sound_uniform_range, Hlh|].
  intros base Hbase.
  eapply sound_weaken; [apply sound_for_each; intros y _; apply gdp_year_step_sound|].
  intros rows (bs & -> & Hbs). split.
  { rewrite (Forall2_concat_length (fun _ : Z => 1%nat) (py_range 2015 2024) bs);
      [reflexivity|].
    eapply Forall2_impl; [|exact Hbs]. intros y b (r & -> & _). reflexivity. }
  exists lo, hi, base. split; [exact Hin|]. split; [apply Hbase|]. split; [apply Hbase|].
  intros r Hr.
  destruct (Forall2_concat_in _ _ _ _ Hbs Hr) as (y & b & Hy & Hrb & r' & -> & Hyr & Hok).
  destruct Hrb as [<-|[]]. rewrite Hyr. auto.
Qed.

(** C2 *)
(** Claim C2: for every country, whatever its income group, the GDP
    generator draws one base GDP per capita, and the record of each year
    [y] stores [round(base * (1 + growth/100) ** (y - 2015), 2)] with the
    growth rate drawn for that year (not a chained compounding), its
    growth column storing [round(growth, 2)]; for 2020 that growth lies in
    [-5, -2]. *)
Theorem gdp_covid_shock_and_exponent_rule (cs : list country) (s : list Q) :
  valid_stream s ->
  (forall c, In c cs -> In (income_group c) income_group_names) ->
  exists rows s', load_gdp_data cs s = Ok rows s' /\
  exists blocks, rows = List.concat blocks /\
  Forall2 (fun c block =>
    exists lo hi base_gdp, In (income_group c, (lo, hi)) gdp_ranges /\
      lo <= base_gdp /\ base_gdp <= hi /\
      forall r, In r block ->
        gdp_country r = country_code c /\
        exists growth,
          gdp_per_capita_current_usd r
            = round2 (base_gdp * Qpower (1 + growth / 100) (gdp_year r - 2015)) /\
          gdp_growth_annual_pct r = round2 growth /\
          (gdp_year r = 2020%Z -> -5 <= growth /\ growth <= -2)) cs blocks.
Proof.
  intros Hs Hcs.
  assert (H : sound valid_stream (load_gdp_data cs) (fun rows => exists bs, rows = List.concat bs /\
            Forall2 (fun c rows => List.length rows = 9%nat /\
              exists lo hi base_gdp, In (income_group c, (lo, hi)) gdp_ranges /\
                lo <= base_gdp /\ base_gdp <= hi /\
                forall r, In r rows -> In (gdp_year r) (py_range 2015 2024) /\
                  gdp_record_ok (country_code c) base_gdp r) cs bs)).
  { apply sound_for_each. intros c Hc. apply gdp_country_rows_sound, Hcs, Hc. }
  destruct (H s Hs) as (rows & s' & E & _ & bs & -> & Hbs).
  exists (List.concat bs), s'. split; [exact E|]. exists bs. split; [reflexivity|].
  eapply Forall2_impl; [|exact Hbs].
  intros c b (_ & lo & hi & base & Hin & H1 & H2 & Hr).
  exists lo, hi, base. split; [exact Hin|]. split; [exact H1|]. split; [exact H2|].
  intros r Hrb. destruct (Hr r Hrb) as [_ Hok]. exact Hok.
Qed.

Lemma gdp_covid_shock_and_exponent_rule_witness :
  valid_stream [1 # 3] /\
  exists rows s', load_gdp_data countries [1 # 3] = Ok rows s' /\
  exists blocks, rows = List.concat blocks /\
  Forall2 (fun c block =>
    exists lo hi base_gdp, In (income_group c, (lo, hi)) gdp_ranges /\
      lo <= base_gdp /\ base_gdp <= hi /\
      forall r, In r block ->
        gdp_country r = country_code c /\
        exists growth,
          gdp_per_capita_current_usd r
            = round2 (base_gdp * Qpower (1 + growth / 100) (gdp_year r - 2015)) /\
          gdp_growth_annual_pct r = round2 growth /\
          (gdp_year r = 2020%Z -> -5 <= growth /\ growth <= -2)) countries blocks.
Proof.
  assert (Hs : valid_stream [1 # 3]) by (repeat constructor; unfold Qle; simpl; lia).
  split; [exact Hs|].
  apply (gdp_covid_shock_and_exponent_rule countries _ Hs catalog_income_groups).
Defined.

(** ** Poverty records *)

Lemma for_each_singleton_ret {A B} (f : A -> B) (ys : list A) (s : list Q) :
  for_each ys (fun y => ret [f y]) s = Ok (map f ys) s.
Proof.
  revert s. induction ys as [|y ys IH]; intros s; [reflexivity|].
  simpl. unfold bind at 1, ret at 1. unfold bind. rewrite IH. reflexivity.
Qed.

Definition pov_bases_ok (b : Q * Q * Q) : Prop :=
  1 <= fst (fst b) /\ 1 <= snd (fst b) /\ 1 <= snd b.

Lemma poverty_bases_sound (ig : string) : sound valid_stream (poverty_bases ig) pov_bases_ok.
Proof.
  unfold poverty_bases.
  destruct (String.eqb ig LI); [|destruct (String.eqb ig LMI)];
  (apply sound_bind with (P := fun v => 1 <= v); [eapply sound_weaken;
     [apply sound_uniform_range; lra | simpl; intros; lra]|]; intros b1 H1;
   apply sound_bind with (P := fun v => 1 <= v); [eapply sound_weaken;
     [apply sound_uniform_range; lra | simpl; intros; lra]|]; intros b2 H2;
   apply sound_bind with (P := fun v => 1 <= v); [eapply sound_weaken;
     [apply sound_uniform_range; lra | simpl; intros; lra]|]; intros b3 H3;
   apply sound_ret; unfold pov_bases_ok; simpl; auto).
Qed.

Lemma pov_country_rows_sound (c : country) :
  sound valid_stream (pov_country_rows c)
        (fun rows =>
           (has_poverty_data (income_group c) = false -> rows = []) /\
           (has_poverty_data (income_group c) = true ->
            exists b215 b365 b685, 1 <= b215 /\ 1 <= b365 /\ 1 <= b685 /\
              rows = map (poverty_record (country_code c) b215 b365 b685) survey_years)).
Proof.
  unfold pov_country_rows. destruct (has_poverty_data (income_group c)) eqn:Eh.
  - apply sound_bind with (P := pov_bases_ok); [apply poverty_bases_sound|].
    intros [[b1 b2] b3] (H1 & H2 & H3). simpl in H1, H2, H3.
    intros s Hs. rewrite for_each_singleton_ret. eexists _, s.
    split; [reflexivity|]. split; [exact Hs|]. split; [discriminate|].
    intros _. exists b1, b2, b3. auto.
  - apply sound_ret. split; [reflexivity | discriminate].
Qed.

Lemma has_poverty_data_not_high (ig : string) :
  has_poverty_data ig = true -> ig <> HI.
Proof.
  unfold has_poverty_data. simpl. intros H ->. discriminate H.
Qed.

Lemma NoDup_map_key {A} (k : A -> string) (xs : list A) (a b : A) :
  NoDup (map k xs) -> In a xs -> In b xs -> k a = k b -> a = b.
Proof.
  induction xs as [|x xs IH]; simpl; [tauto|].
  intros Hnd Ha Hb Hk. inversion Hnd as [|? ? Hx Hnd']; subst.
  destruct Ha as [<-|Ha]; destruct Hb as [<-|Hb]; auto.
  - exfalso. apply Hx. rewrite Hk. apply in_map, Hb.
  - exfalso. apply Hx. rewrite <- Hk. apply in_map, Ha.
Qed.

Lemma Forall2_concat_same_key {A B} (ka : A -> string) (kb : B -> string)
      (P : A -> list B -> Prop) xs bs r1 r2 :
  NoDup (map ka xs) ->
  Forall2 (fun x b => P x b /\ forall r, In r b -> kb r = ka x) xs bs ->
  In r1 (List.concat bs) -> In r2 (List.concat bs) -> kb r1 = kb r2 ->
  exists x b, In x xs /\ P x b /\ In r1 b /\ In r2 b.
Proof.
  intros Hnd H. revert Hnd. induction H as [|x b xs bs [HP Hk] Hrest IH]; simpl; [tauto|].
  intros Hnd H1 H2 Hk12. inversion Hnd as [|? ? Hx Hnd']; subst.
  apply in_app_or in H1; apply in_app_or in H2.
  destruct H1 as [H1|H1]; destruct H2 as [H2|H2].
  - exists x, b. auto.
  - exfalso. destruct (Forall2_concat_in _ _ _ _ Hrest H2) as (x' & b' & Hx' & Hr2 & _ & Hk').
    apply Hx. rewrite <- (Hk r1 H1), Hk12, (Hk' r2 Hr2). apply in_map, Hx'.
  - exfalso. destruct (Forall2_concat_in _ _ _ _ Hrest H1) as (x' & b' & Hx' & Hr1 & _ & Hk').
    apply Hx. rewrite <- (Hk r2 H2), <- Hk12, (Hk' r1 Hr1). apply in_map, Hx'.
  - destruct (IH Hnd' H1 H2 Hk12) as (x' & b' & ? & ? & ? & ?). exists x', b'. auto.
Qed.

Lemma reduction_strict (b : Q) (y1 y2 : Z) :
  1 <= b -> (y1 < y2)%Z ->
  round2 (b * reduction_factor y2) < round2 (b * reduction_factor y1).
Proof.
  intros Hb Hy. unfold reduction_factor.
  set (a1 := inject_Z (y1 - 2015)). set (a2 := inject_Z (y2 - 2015)).
  assert (Ha : a1 + 1 <= a2).
  { unfold a1, a2. change 1 with (inject_Z 1). rewrite <- inject_Z_plus.
    rewrite <- Zle_Qle. lia. }
  assert (Hp : 1 <= b * (a2 - a1)) by nra.
  assert (Hd : b * (1 - a1 / 8 * (15 # 100)) - b * (1 - a2 / 8 * (15 # 100))
               == b * (a2 - a1) * (15 # 800)) by (field).
  pose proof (round2_close (b * (1 - a1 / 8 * (15 # 100)))) as [H1 H2].
  pose proof (round2_close (b * (1 - a2 / 8 * (15 # 100)))) as [H3 H4].
  lra.
Qed.

Lemma load_poverty_data_blocks (s : list Q) :
  valid_stream s ->
  exists rows s', load_poverty_data countries s = Ok rows s' /\ valid_stream s' /\
  exists bs, rows = List.concat bs /\
  Forall2 (fun c b =>
    ((has_poverty_data (income_group c) = false -> b = []) /\
     (has_poverty_data (income_group c) = true ->
      exists b215 b365 b685, 1 <= b215 /\ 1 <= b365 /\ 1 <= b685 /\
        b = map (poverty_record (country_code c) b215 b365 b685) survey_years)) /\
    forall r, In r b -> pov_country r = country_code c) countries bs.
Proof.
  intros Hs.
  assert (H : sound valid_stream (load_poverty_data countries) (fun rows =>
            exists bs, rows = List.concat bs /\ Forall2 (fun c b =>
              ((has_poverty_data (income_group c) = false -> b = []) /\
               (has_poverty_data (income_group c) = true ->
                exists b215 b365 b685, 1 <= b215 /\ 1 <= b365 /\ 1 <= b685 /\
                  b = map (poverty_record (country_code c) b215 b365 b685) survey_years)) /\
              forall r, In r b -> pov_country r = country_code c) countries bs)).
  { apply sound_for_each. intros c _. eapply sound_weaken; [apply pov_country_rows_sound|].
    intros rows [Hf Ht]. split; [split; assumption|].
    intros r Hr. destruct (has_poverty_data (income_group c)) eqn:E.
    - destruct (Ht eq_refl) as (b1 & b2 & b3 & _ & _ & _ & ->).
      apply in_map_iff in Hr as (y & <- & _). reflexivity.
    - rewrite (Hf eq_refl) in Hr. destruct Hr. }
  destruct (H s Hs) as (rows & s' & E & Hs' & Hb). eauto.
Qed.

(** C3 *)
(** Claim C3: within a country, each of the three poverty headcount rates
    strictly decreases as the survey year increases, and no poverty record
    belongs to a High income country. *)
Theorem poverty_strictly_decreasing_no_high_income (s : list Q) :
  valid_stream s ->
  exists rows s', load_poverty_data countries s = Ok rows s' /\
  (forall r c, In r rows -> In c countries -> country_code c = pov_country r ->
               income_group c <> HI) /\
  (forall r1 r2, In r1 rows -> In r2 rows -> pov_country r1 = pov_country r2 ->
     (pov_year r1 < pov_year r2)%Z ->
     poverty_headcount_215_pct r2 < poverty_headcount_215_pct r1 /\
     poverty_headcount_365_pct r2 < poverty_headcount_365_pct r1 /\
     poverty_headcount_685_pct r2 < poverty_headcount_685_pct r1).
Proof.
  intros Hs. destruct (load_poverty_data_blocks s Hs) as (rows & s' & E & Hs' & bs & -> & Hbs).
  exists (List.concat bs), s'. split; [exact E|]. split.
  - intros r c Hr Hc Hcode.
    destruct (Forall2_concat_in _ _ _ _ Hbs Hr) as (c' & b & Hc' & Hrb & [Hf Ht] & Hk).
    assert (Ec : c = c').
    { apply (NoDup_map_key country_code countries); auto using catalog_codes_nodup.
      rewrite Hcode. apply Hk, Hrb. }
    subst c'. destruct (has_poverty_data (income_group c)) eqn:Eh.
    + apply has_poverty_data_not_high, Eh.
    + rewrite (Hf eq_refl) in Hrb. destruct Hrb.
  - intros r1 r2 H1 H2 Hk Hy.
    destruct (Forall2_concat_same_key country_code pov_country _ _ _ _ _
                catalog_codes_nodup Hbs H1 H2 Hk) as (c & b & _ & [Hf Ht] & Hr1 & Hr2).
    destruct (has_poverty_data (income_group c)) eqn:Eh.
    + destruct (Ht eq_refl) as (b1 & b2 & b3 & Hb1 & Hb2 & Hb3 & ->).
      apply in_map_iff in Hr1 as (y1 & <- & _). apply in_map_iff in Hr2 as (y2 & <- & _).
      simpl in Hy |- *. repeat split; apply reduction_strict; assumption.
    + rewrite (Hf eq_refl) in Hr1. destruct Hr1.
Qed.

Lemma poverty_strictly_decreasing_no_high_income_witness :
  valid_stream [0; 1] /\
  exists rows s', load_poverty_data countries [0; 1] = Ok rows s' /\
  (forall r c, In r rows -> In c countries -> country_code c = pov_country r ->
               income_group c <> HI) /\
  (forall r1 r2, In r1 rows -> In r2 rows -> pov_country r1 = pov_country r2 ->
     (pov_year r1 < pov_year r2)%Z ->
     poverty_headcount_215_pct r2 < poverty_headcount_215_pct r1 /\
     poverty_headcount_365_pct r2 < poverty_headcount_365_pct r1 /\
     poverty_headcount_685_pct r2 < poverty_headcount_685_pct r1).
Proof.
  assert (Hs : valid_stream [0; 1]) by (repeat constructor; unfold Qle; simpl; lia).
  split; [exact Hs | apply (poverty_strictly_decreasing_no_high_income _ Hs)].
Defined.

(** C5 *)
(** Claim C5, as stated (every record of every run has
    [215 <= 365 <= 685]), fails: China (Upper middle income, the first
    country with poverty data) draws [base_215 = 15] (unit draw 1) and
    [base_365 = 5] (unit draw 0), so its 2015 record stores 15.00 at the
    $2.15 line and 5.00 at the $3.65 line. *)
Lemma poverty_lines_monotone_counterexample :
  ~ (forall s, valid_stream s -> forall rows s', load_poverty_data countries s = Ok rows s' ->
       forall r, In r rows ->
         poverty_headcount_215_pct r <= poverty_headcount_365_pct r /\
         poverty_headcount_365_pct r <= poverty_headcount_685_pct r).
Proof.
  intros H.
  assert (Hs : valid_stream [1; 0; 0]) by (repeat constructor; unfold Qle; simpl; lia).
  destruct (load_poverty_data countries [1; 0; 0]) as [rows s'|e] eqn:E;
    [| vm_compute in E; discriminate E].
  specialize (H _ Hs rows s' E).
  vm_compute in E. injection E as <- _.
  destruct (H _ (or_introl eq_refl)) as [H1 _].
  vm_compute in H1. apply H1. reflexivity.
Qed.

(** Claim C5, amended: every poverty record stores [round(b * factor, 2)]
    of three bases [b215], [b365], [b685] drawn once per country from
    three independent, overlapping ranges; the stored rates are ordered
    [215 <= 365 <= 685] whenever the drawn bases are, but the code does
    not force that order. *)
Theorem poverty_lines_monotone_when_bases_ordered (s : list Q) :
  valid_stream s ->
  exists rows s', load_poverty_data countries s = Ok rows s' /\
  forall r, In r rows ->
    exists b215 b365 b685,
      In (pov_year r) survey_years /\
      r = poverty_record (pov_country r) b215 b365 b685 (pov_year r) /\
      (b215 <= b365 -> b365 <= b685 ->
       poverty_headcount_215_pct r <= poverty_headcount_365_pct r /\
       poverty_headcount_365_pct r <= poverty_headcount_685_pct r).
Proof.
  intros Hs. destruct (load_poverty_data_blocks s Hs) as (rows & s' & E & Hs' & bs & -> & Hbs).
  exists (List.concat bs), s'. split; [exact E|].
  intros r Hr.
  destruct (Forall2_concat_in _ _ _ _ Hbs Hr) as (c & b & _ & Hrb & [Hf Ht] & _).
  destruct (has_poverty_data (income_group c)) eqn:Eh;
    [| rewrite (Hf eq_refl) in Hrb; destruct Hrb].
  destruct (Ht eq_refl) as (b1 & b2 & b3 & _ & _ & _ & ->).
  apply in_map_iff in Hrb as (y & <- & Hy).
  exists b1, b2, b3. split; [exact Hy|]. split; [reflexivity|].
  intros H12 H23. simpl.
  assert (Hf0 : 0 <= reduction_factor y).
  { unfold reduction_factor. simpl in Hy.
    repeat destruct Hy as [<-|Hy]; try contradiction; vm_compute; discriminate. }
  split; apply round2_mono; apply Qmult_le_compat_r; assumption.
Qed.

Lemma poverty_lines_monotone_when_bases_ordered_witness :
  valid_stream [] /\
  exists rows s', load_poverty_data countries [] = Ok rows s' /\
  forall r, In r rows ->
    exists b215 b365 b685,
      In (pov_year r) survey_years /\
      r = poverty_record (pov_country r) b215 b365 b685 (pov_year r) /\
      (b215 <= b365 -> b365 <= b685 ->
       poverty_headcount_215_pct r <= poverty_headcount_365_pct r /\
       poverty_headcount_365_pct r <= poverty_headcount_685_pct r).
Proof.
  assert (Hs : valid_stream []) by constructor.
  split; [exact Hs | apply (poverty_lines_monotone_when_bases_ordered _ Hs)].
Defined.

(** ** Trade and education records *)

Definition edu_bases_ok (b : Q * Q * Q) : Prop :=
  fst (fst b) <= 105 /\ snd (fst b) <= 90.

Lemma education_bases_sound (ig : string) : sound valid_stream (education_bases ig) edu_bases_ok.
Proof.
  unfold education_bases.
  destruct (String.eqb ig HI); [|destruct (String.eqb ig UMI); [|destruct (String.eqb ig LMI)]];
  (apply sound_bind with (P := fun v => v <= 105); [eapply sound_weaken;
     [apply sound_uniform_range; lra | simpl; intros; lra]|]; intros b1 H1;
   apply sound_bind with (P := fun v => v <= 90); [eapply sound_weaken;
     [apply sound_uniform_range; lra | simpl; intros; lra]|]; intros b2 H2;
   apply sound_bind with (P := fun _ => True); [apply sound_uniform_any_value; lra|];
   intros b3 _; apply sound_ret; unfold edu_bases_ok; simpl; auto).
Qed.

Definition trade_record_ok (code : string) (base_trade sec ter gov : Q) (r : trade_row)
  : Prop :=
  let years_since_2015 := inject_Z (trade_year r - 2015) in
  trade_country r = code /\
  secondary_enrollment_rate r = round2 (py_min 105 (sec + years_since_2015 * (1 # 2))) /\
  tertiary_enrollment_rate r = round2 (ter + years_since_2015 * (3 # 10)) /\
  exists u1 u2, unit_draw u1 /\ unit_draw u2 /\
    trade_pct_gdp r = round2 (base_trade + uniform (-10) 10 u1) /\
    government_expenditure_education_pct r = round2 (gov + uniform (-1 # 2) (1 # 2) u2).

Lemma trade_year_step_sound (code : string) (base_trade sec ter gov : Q) (year : Z) :
  sound valid_stream (trade_year_step code base_trade sec ter gov year)
        (fun rows => exists r, rows = [r] /\ trade_year r = year /\
                               trade_record_ok code base_trade sec ter gov r).
Proof.
  unfold trade_year_step.
  apply sound_bind with (P := fun v => exists u, unit_draw u /\ v = uniform (-10) 10 u);
    [apply sound_uniform; lra|].
  intros tn (u1 & Hu1 & ->).
  apply sound_bind with (P := fun v => exists u, unit_draw u /\ v = uniform (-1 # 2) (1 # 2) u);
    [apply sound_uniform; lra|].
  intros gn (u2 & Hu2 & ->).
  apply sound_ret. eexists; split; [reflexivity|]. split; [reflexivity|].
  unfold trade_record_ok; simpl. split; [reflexivity|]. split; [reflexivity|].
  split; [reflexivity|]. exists u1, u2. auto.
Qed.

Lemma trade_country_rows_sound (c : country) :
  sound valid_stream (trade_country_rows c)
        (fun rows => List.length rows = 9%nat /\
           exists base_trade sec ter gov, sec <= 105 /\ ter <= 90 /\
             forall r, In r rows -> In (trade_year r) (py_range 2015 2024) /\
               trade_record_ok (country_code c) base_trade sec ter gov r).
Proof.
  unfold trade_country_rows.
  apply sound_bind with (P := fun _ => True); [apply sound_uniform_any_value; lra|].
  intros base_trade _.
  apply sound_bind with (P := edu_bases_ok); [apply education_bases_sound|].
  intros [[sec ter] gov] [Hsec Hter]. simpl in Hsec, Hter.
  eapply sound_weaken; [apply sound_for_each; intros y _; apply trade_year_step_sound|].
  intros rows (bs & -> & Hbs). split.
  { rewrite (Forall2_concat_length (fun _ : Z => 1%nat) (py_range 2015 2024) bs);
      [reflexivity|].
    eapply Forall2_impl; [|exact Hbs]. intros y b (r & -> & _). reflexivity. }
  exists base_trade, sec, ter, gov. split; [exact Hsec|]. split; [exact Hter|].
  intros r Hr.
  destruct (Forall2_concat_in _ _ _ _ Hbs Hr) as (y & b & Hy & Hrb & r' & -> & Hyr & Hok).
  destruct Hrb as [<-|[]]. rewrite Hyr. auto.
Qed.

Lemma trade_blocks (cs : list country) (s : list Q) :
  valid_stream s ->
  exists rows s', load_trade_education cs s = Ok rows s' /\ valid_stream s' /\
  exists bs, rows = List.concat bs /\
  Forall2 (fun c rows => List.length rows = 9%nat /\
           exists base_trade sec ter gov, sec <= 105 /\ ter <= 90 /\
             forall r, In r rows -> In (trade_year r) (py_range 2015 2024) /\
               trade_record_ok (country_code c) base_trade sec ter gov r) cs bs.
Proof.
  intros Hs.
  assert (H : sound valid_stream (load_trade_education cs) (fun rows =>
            exists bs, rows = List.concat bs /\
            Forall2 (fun c rows => List.length rows = 9%nat /\
              exists base_trade sec ter gov, sec <= 105 /\ ter <= 90 /\
                forall r, In r rows -> In (trade_year r) (py_range 2015 2024) /\
                  trade_record_ok (country_code c) base_trade sec ter gov r) cs bs)).
  { apply sound_for_each. intros c _. apply trade_country_rows_sound. }
  destruct (H s Hs) as (rows & s' & E & Hs' & Hb). eauto.
Qed.

Lemma py_min_105_le (x : Q) : py_min 105 x <= 105.
Proof. apply py_min_le. Qed.

(** C6 *)
(** Claim C6: every trade/education record of a run, for any countries
    and any draws, stores a secondary enrollment rate of at most 105 and a
    tertiary enrollment rate of at most 105. *)
Theorem enrollment_rates_at_most_105 (cs : list country) (s : list Q) :
  valid_stream s ->
  exists rows s', load_trade_education cs s = Ok rows s' /\
  forall r, In r rows ->
    secondary_enrollment_rate r <= 105 /\ tertiary_enrollment_rate r <= 105.
Proof.
  intros Hs. destruct (trade_blocks cs s Hs) as (rows & s' & E & Hs' & bs & -> & Hbs).
  exists (List.concat bs), s'. split; [exact E|].
  intros r Hr.
  destruct (Forall2_concat_in _ _ _ _ Hbs Hr)
    as (c & b & _ & Hrb & _ & bt & sec & ter & gov & Hsec & Hter & Hrows).
  destruct (Hrows r Hrb) as [Hy (_ & Hs2 & Ht2 & _)].
  split.
  - rewrite Hs2. pose proof (round2_le 10500 (py_min 105 (sec + inject_Z (trade_year r - 2015) * (1 # 2)))) as H.
    pose proof (py_min_105_le (sec + inject_Z (trade_year r - 2015) * (1 # 2))). lra.
  - rewrite Ht2.
    assert (Hyr : inject_Z (trade_year r - 2015) <= 8).
    { simpl in Hy. repeat destruct Hy as [<-|Hy]; try contradiction;
        vm_compute; discriminate. }
    pose proof (round2_le 10500 (ter + inject_Z (trade_year r - 2015) * (3 # 10))) as H.
    lra.
Qed.

Lemma enrollment_rates_at_most_105_witness :
  valid_stream [1] /\
  exists rows s', load_trade_education countries [1] = Ok rows s' /\
  forall r, In r rows ->
    secondary_enrollment_rate r <= 105 /\ tertiary_enrollment_rate r <= 105.
Proof.
  assert (Hs : valid_stream [1]) by (repeat constructor; unfold Qle; simpl; lia).
  split; [exact Hs | apply (enrollment_rates_at_most_105 countries _ Hs)].
Defined.

(** C9 *)
(** Claim C9, as stated (every per-year attribute, the enrollment rates
    included, carries a freshly drawn per-year noise term), fails: for the
    United States, two runs that draw the same bases but opposite ends of
    the 2015 noise ranges (unit draws 0, 0 versus 1, 1) store different
    trade and expenditure values for 2015 and the very same secondary and
    tertiary enrollment rates. *)
Lemma enrollment_noise_counterexample :
  match load_trade_education countries [1 # 2; 1 # 2; 1 # 2; 1 # 2; 0; 0],
        load_trade_education countries [1 # 2; 1 # 2; 1 # 2; 1 # 2; 1; 1] with
  | Ok (r1 :: _) _, Ok (r2 :: _) _ =>
      trade_country r1 = "USA"%string /\ trade_year r1 = 2015%Z /\
      trade_country r2 = "USA"%string /\ trade_year r2 = 2015%Z /\
      trade_pct_gdp r1 <> trade_pct_gdp r2 /\
      government_expenditure_education_pct r1 <> government_expenditure_education_pct r2 /\
      secondary_enrollment_rate r1 = secondary_enrollment_rate r2 /\
      tertiary_enrollment_rate r1 = tertiary_enrollment_rate r2
  | _, _ => False
  end.
Proof.
  vm_compute. repeat split; try reflexivity; discriminate.
Qed.

(** Claim C9, amended: for each year 2015-2023 the secondary rate is
    [round(min(105, sec + 0.5 * (year - 2015)), 2)] and the tertiary rate
    [round(ter + 0.3 * (year - 2015), 2)] of the country's two bases, with
    no per-year noise; fresh per-year noise is drawn only for the trade
    share ([base_trade + uniform(-10, 10)]) and the education expenditure
    ([gov + uniform(-0.5, 0.5)]). *)
Theorem enrollment_linear_noise_only_trade_and_expenditure (cs : list country) (s : list Q) :
  valid_stream s ->
  exists rows s', load_trade_education cs s = Ok rows s' /\
  exists blocks, rows = List.concat blocks /\
  Forall2 (fun c block =>
    exists base_trade sec ter gov,
      forall r, In r block ->
        let years_since_2015 := inject_Z (trade_year r - 2015) in
        In (trade_year r) (py_range 2015 2024) /\
        trade_country r = country_code c /\
        secondary_enrollment_rate r = round2 (py_min 105 (sec + years_since_2015 * (1 # 2))) /\
        tertiary_enrollment_rate r = round2 (ter + years_since_2015 * (3 # 10)) /\
        exists u1 u2, unit_draw u1 /\ unit_draw u2 /\
          trade_pct_gdp r = round2 (base_trade + uniform (-10) 10 u1) /\
          government_expenditure_education_pct r
            = round2 (gov + uniform (-1 # 2) (1 # 2) u2)) cs blocks.
Proof.
  intros Hs. destruct (trade_blocks cs s Hs) as (rows & s' & E & Hs' & bs & -> & Hbs).
  exists (List.concat bs), s'. split; [exact E|]. exists bs. split; [reflexivity|].
  eapply Forall2_impl; [|exact Hbs].
  intros c b (_ & bt & sec & ter & gov & _ & _ & Hr).
  exists bt, sec, ter, gov. intros r Hrb. destruct (Hr r Hrb) as [Hy Hok].
  split; [exact Hy | exact Hok].
Qed.

Lemma enrollment_linear_noise_only_trade_and_expenditure_witness :
  valid_stream [1 # 4] /\
  exists rows s', load_trade_education countries [1 # 4] = Ok rows s' /\
  exists blocks, rows = List.concat blocks /\
  Forall2 (fun c block =>
    exists base_trade sec ter gov,
      forall r, In r block ->
        let years_since_2015 := inject_Z (trade_year r - 2015) in
        In (trade_year r) (py_range 2015 2024) /\
        trade_country r = country_code c /\
        secondary_enrollment_rate r = round2 (py_min 105 (sec + years_since_2015 * (1 # 2))) /\
        tertiary_enrollment_rate r = round2 (ter + years_since_2015 * (3 # 10)) /\
        exists u1 u2, unit_draw u1 /\ unit_draw u2 /\
          trade_pct_gdp r = round2 (base_trade + uniform (-10) 10 u1) /\
          government_expenditure_education_pct r
            = round2 (gov + uniform (-1 # 2) (1 # 2) u2)) countries blocks.
Proof.
  assert (Hs : valid_stream [1 # 4]) by (repeat constructor; unfold Qle; simpl; lia).
  split; [exact Hs | apply (enrollment_linear_noise_only_trade_and_expenditure countries _ Hs)].
Defined.

(** ** Row counts *)

Definition non_high_income_count : nat :=
  List.length (filter (fun c => negb (is_high_income c)) countries).

Lemma gdp_length (s : list Q) :
  valid_stream s ->
  exists rows s', load_gdp_data countries s = Ok rows s' /\ valid_stream s' /\
                  List.length rows = 432%nat.
Proof.
  intros Hs.
  assert (H : sound valid_stream (load_gdp_data countries)
            (fun rows => exists bs, rows = List.concat bs /\
               Forall2 (fun c b => List.length b = 9%nat) countries bs)).
  { eapply sound_weaken; [apply sound_for_each; intros c Hc;
      apply gdp_country_rows_sound, catalog_income_groups, Hc|].
    intros rows (bs & -> & Hbs). exists bs. split; [reflexivity|].
    eapply Forall2_impl; [|exact Hbs]. intros c b [Hl _]. exact Hl. }
  destruct (H s Hs) as (rows & s' & E & Hs' & bs & -> & Hbs).
  exists (List.concat bs), s'. split; [exact E|]. split; [exact Hs'|].
  rewrite (Forall2_concat_length (fun _ => 9%nat) countries bs Hbs). reflexivity.
Qed.

Lemma ineq_length (s : list Q) :
  valid_stream s ->
  exists rows s', load_inequality_data countries s = Ok rows s' /\ valid_stream s' /\
                  List.length rows = 240%nat.
Proof.
  intros Hs.
  assert (H : sound valid_stream (load_inequality_data countries)
            (fun rows => exists bs, rows = List.concat bs /\
               Forall2 (fun c b => List.length b = 5%nat) countries bs)).
  { eapply sound_weaken; [apply sound_for_each; intros c Hc;
      apply ineq_country_rows_sound, catalog_regions, Hc|].
    intros rows (bs & -> & Hbs). exists bs. split; [reflexivity|].
    eapply Forall2_impl; [|exact Hbs]. intros c b [Hl _]. exact Hl. }
  destruct (H s Hs) as (rows & s' & E & Hs' & bs & -> & Hbs).
  exists (List.concat bs), s'. split; [exact E|]. split; [exact Hs'|].
  rewrite (Forall2_concat_length (fun _ => 5%nat) countries bs Hbs). reflexivity.
Qed.

Lemma trade_length (s : list Q) :
  valid_stream s ->
  exists rows s', load_trade_education countries s = Ok rows s' /\ valid_stream s' /\
                  List.length rows = 432%nat.
Proof.
  intros Hs. destruct (trade_blocks countries s Hs) as (rows & s' & E & Hs' & bs & -> & Hbs).
  exists (List.concat bs), s'. split; [exact E|]. split; [exact Hs'|].
  rewrite (Forall2_concat_length (fun _ => 9%nat) countries bs); [reflexivity|].
  eapply Forall2_impl; [|exact Hbs]. intros c b [Hl _]. exact Hl.
Qed.

Lemma poverty_length (s : list Q) :
  valid_stream s ->
  exists rows s', load_poverty_data countries s = Ok rows s' /\ valid_stream s' /\
                  List.length rows = (5 * non_high_income_count)%nat.
Proof.
  intros Hs. destruct (load_poverty_data_blocks s Hs) as (rows & s' & E & Hs' & bs & -> & Hbs).
  exists (List.concat bs), s'. split; [exact E|]. split; [exact Hs'|].
  rewrite (Forall2_concat_length
             (fun c => if has_poverty_data (income_group c) then 5%nat else 0%nat)
             countries bs); [reflexivity|].
  eapply Forall2_impl; [|exact Hbs]. intros c b [[Hf Ht] _].
  destruct (has_poverty_data (income_group c)).
  - destruct (Ht eq_refl) as (b1 & b2 & b3 & _ & _ & _ & ->). rewrite length_map. reflexivity.
  - rewrite (Hf eq_refl). reflexivity.
Qed.

(** C4 *)
(** Claim C4: with the 48-country catalog, one run's generators produce
    432 GDP rows (48 x 9 years), 240 inequality rows (48 x 5 survey
    years), 432 trade/education rows (48 x 9) and 5 x N poverty rows,
    N being the number of catalog countries not in the High income group
    (22, so 110 rows). *)
Theorem row_counts_of_one_run (s : list Q) :
  valid_stream s ->
  List.length countries = 48%nat /\ non_high_income_count = 22%nat /\
  (exists rows s', load_gdp_data countries s = Ok rows s' /\ List.length rows = 432%nat) /\
  (exists rows s', load_inequality_data countries s = Ok rows s' /\
                   List.length rows = 240%nat) /\
  (exists rows s', load_trade_education countries s = Ok rows s' /\
                   List.length rows = 432%nat) /\
  (exists rows s', load_poverty_data countries s = Ok rows s' /\
                   List.length rows = (5 * non_high_income_count)%nat).
Proof.
  intros Hs. split; [reflexivity|]. split; [reflexivity|].
  destruct (gdp_length s Hs) as (r1 & s1 & E1 & _ & L1).
  destruct (ineq_length s Hs) as (r2 & s2 & E2 & _ & L2).
  destruct (trade_length s Hs) as (r3 & s3 & E3 & _ & L3).
  destruct (poverty_length s Hs) as (r4 & s4 & E4 & _ & L4).
  repeat split; eauto.
Qed.

Lemma row_counts_of_one_run_witness :
  valid_stream [1; 0] /\
  List.length countries = 48%nat /\ non_high_income_count = 22%nat /\
  (exists rows s', load_gdp_data countries [1; 0] = Ok rows s' /\
                   List.length rows = 432%nat) /\
  (exists rows s', load_inequality_data countries [1; 0] = Ok rows s' /\
                   List.length rows = 240%nat) /\
  (exists rows s', load_trade_education countries [1; 0] = Ok rows s' /\
                   List.length rows = 432%nat) /\
  (exists rows s', load_poverty_data countries [1; 0] = Ok rows s' /\
                   List.length rows = (5 * non_high_income_count)%nat).
Proof.
  assert (Hs : valid_stream [1; 0]) by (repeat constructor; unfold Qle; simpl; lia).
  split; [exact Hs | apply (row_counts_of_one_run _ Hs)].
Defined.

(** ** The run: tables after a successful run *)

Definition table_count (d : db) (t : string) : option nat :=
  option_map (@List.length any_row) (d t).

Lemma io_bind_inr {A B} (m : IO A) (k : A -> IO B) (w w'' : world) (b : B) :
  io_bind m k w = (inr b, w'') ->
  exists a w', m w = (inr a, w') /\ k a w' = (inr b, w'').
Proof.
  unfold io_bind. destruct (m w) as [[e|a] w']; [discriminate | eauto].
Qed.

Lemma say_ok (m : string) (w w' : world) (u : unit) :
  say m w = (inr u, w') -> w_db w' = w_db w /\ w_rng w' = w_rng w.
Proof. unfold say, emit. intros H. injection H as _ <-. auto. Qed.

Lemma emit_ok (ev : event) (w w' : world) (u : unit) :
  emit ev w = (inr u, w') -> w_db w' = w_db w /\ w_rng w' = w_rng w.
Proof. unfold emit. intros H. injection H as _ <-. auto. Qed.

Lemma run_schema_ok (E : env) (w w' : world) (u : unit) :
  run_schema E w = (inr u, w') -> w_rng w' = w_rng w.
Proof.
  unfold run_schema. destruct (schema_file E) as [text|]; [|discriminate].
  destruct (executescript E text (w_db w)) as [d' []]; [discriminate|].
  intros H. injection H as _ <-. reflexivity.
Qed.

Lemma report_counts_ok (ts : list string) (w w' : world) (u : unit) :
  report_counts ts w = (inr u, w') -> w_db w' = w_db w /\ w_rng w' = w_rng w.
Proof.
  revert w. induction ts as [|t ts IH]; intros w H; simpl in H.
  - injection H as _ <-. auto.
  - apply io_bind_inr in H as (n & w1 & H1 & H).
    unfold count_rows in H1. destruct (w_db w t); [|discriminate].
    injection H1 as _ <-.
    apply io_bind_inr in H as (u1 & w2 & H2 & H).
    apply emit_ok in H2 as [D2 R2]. destruct (IH _ H) as [D R]. rewrite D, R, D2, R2. auto.
Qed.

Lemma load_stage_ok {R} (E : env) (m t : string) (f : R -> any_row) (g : M (list R))
      (w w' : world) (u : unit) :
  (say m ;;;; rows <-- sample g ;;; to_sql_replace E t (map f rows) ;;;;
   emit (EvLoaded t (List.length rows))) w = (inr u, w') ->
  exists rows, g (w_rng w) = Ok rows (w_rng w') /\
               w_db w' = db_set (w_db w) t (map f rows).
Proof.
  intros H. apply io_bind_inr in H as (u1 & w1 & H1 & H).
  apply say_ok in H1 as [D1 R1].
  apply io_bind_inr in H as (rows & w2 & H2 & H).
  unfold sample in H2. destruct (g (w_rng w1)) as [rows' s'|e] eqn:Eg; [|discriminate].
  injection H2 as <- <-.
  apply io_bind_inr in H as (u3 & w3 & H3 & H).
  unfold to_sql_replace in H3. simpl in H3.
  destruct (write_fails E t (w_db w1)); [discriminate|]. injection H3 as _ <-.
  apply emit_ok in H as [D4 R4]. simpl in D4, R4.
  exists rows'. rewrite R4, D4, <- R1, <- D1. auto.
Qed.

Lemma country_stage_ok (E : env) (w w' : world) (cs : list country) :
  io_load_country_metadata E w = (inr cs, w') ->
  cs = countries /\ w_rng w' = w_rng w /\
  w_db w' = db_set (w_db w) "country_metadata" (map CountryRow countries).
Proof.
  unfold io_load_country_metadata. intros H.
  apply io_bind_inr in H as (u1 & w1 & H1 & H). apply say_ok in H1 as [D1 R1].
  apply io_bind_inr in H as (u2 & w2 & H2 & H).
  unfold to_sql_replace in H2. destruct (write_fails E _ (w_db w1)); [discriminate|].
  injection H2 as _ <-.
  apply io_bind_inr in H as (u3 & w3 & H3 & H). apply emit_ok in H3 as [D3 R3].
  unfold io_ret in H. injection H as <- <-. simpl in D3, R3.
  rewrite D3, R3, <- D1, <- R1. auto.
Qed.

(** A successful [try] body leaves the five tables with exactly the rows
    of this run. *)
Lemma try_body_ok_counts (E : env) (w w' : world) (u : unit) :
  valid_stream (w_rng w) ->
  try_body E w = (inr u, w') ->
  table_count (w_db w') "country_metadata" = Some 48%nat /\
  table_count (w_db w') "gdp_data" = Some 432%nat /\
  table_count (w_db w') "inequality_metrics" = Some 240%nat /\
  table_count (w_db w') "poverty_indicators" = Some 110%nat /\
  table_count (w_db w') "trade_education" = Some 432%nat /\
  valid_stream (w_rng w').
Proof.
  intros Hs H. unfold try_body in H.
  apply io_bind_inr in H as (u1 & w1 & H1 & H). apply say_ok in H1 as [_ R1].
  apply io_bind_inr in H as (u2 & w2 & H2 & H). apply run_schema_ok in H2 as R2.
  apply io_bind_inr in H as (u3 & w3 & H3 & H). apply say_ok in H3 as [_ R3].
  apply io_bind_inr in H as (cs & w4 & H4 & H).
  apply country_stage_ok in H4 as (-> & R4 & D4).
  apply io_bind_inr in H as (u5 & w5 & H5 & H).
  apply (load_stage_ok E msg_gdp "gdp_data" GdpRow (load_gdp_data countries)) in H5
    as (rg & G5 & D5).
  apply io_bind_inr in H as (u6 & w6 & H6 & H).
  apply (load_stage_ok E msg_ineq "inequality_metrics" IneqRow
           (load_inequality_data countries)) in H6 as (ri & G6 & D6).
  apply io_bind_inr in H as (u7 & w7 & H7 & H).
  apply (load_stage_ok E msg_pov "poverty_indicators" PovRow
           (load_poverty_data countries)) in H7 as (rp & G7 & D7).
  apply io_bind_inr in H as (u8 & w8 & H8 & H).
  apply (load_stage_ok E msg_trade "trade_education" TradeRow
           (load_trade_education countries)) in H8 as (rt & G8 & D8).
  apply io_bind_inr in H as (u9 & w9 & H9 & H). apply say_ok in H9 as [D9 R9].
  apply io_bind_inr in H as (u10 & w10 & H10 & H).
  apply report_counts_ok in H10 as [D10 R10].
  apply say_ok in H as [D11 R11].
  assert (S4 : valid_stream (w_rng w4)) by (rewrite R4, R3, R2, R1; exact Hs).
  destruct (gdp_length _ S4) as (rg' & s5 & E5 & S5 & L5).
  rewrite G5 in E5. injection E5 as <- <-.
  destruct (ineq_length _ S5) as (ri' & s6 & E6 & S6 & L6).
  rewrite G6 in E6. injection E6 as <- <-.
  destruct (poverty_length _ S6) as (rp' & s7 & E7 & S7 & L7).
  rewrite G7 in E7. injection E7 as <- <-.
  destruct (trade_length _ S7) as (rt' & s8 & E8 & S8 & L8).
  rewrite G8 in E8. injection E8 as <- <-.
  unfold table_count. rewrite D11, D10, D9, D8, D7, D6, D5, D4.
  unfold db_set; simpl. rewrite !length_map, L5, L6, L7, L8.
  repeat split; try reflexivity. rewrite R11, R10, R9. exact S8.
Qed.

(** ** Every step keeps the pseudo-random stream made of unit draws *)

Definition keeps {A} (m : M A) : Prop :=
  forall s a s', valid_stream s -> m s = Ok a s' -> valid_stream s'.

Lemma keeps_ret {A} (a : A) : keeps (ret a).
Proof. intros s b s' Hs H. injection H as _ <-. exact Hs. Qed.

Lemma keeps_raise {A} (e : exc) : keeps (@raise A e).
Proof. intros s b s' _ H. discriminate H. Qed.

Lemma keeps_bind {A B} (m : M A) (k : A -> M B) :
  keeps m -> (forall a, keeps (k a)) -> keeps (bind m k).
Proof.
  intros Hm Hk s b s' Hs H. unfold bind in H.
  destruct (m s) as [a s1|e] eqn:E; [|discriminate].
  exact (Hk a s1 b s' (Hm s a s1 Hs E) H).
Qed.

Lemma keeps_random_uniform (a b : Q) : keeps (random_uniform a b).
Proof.
  intros s v s' Hs H. unfold random_uniform, bind, random_, ret in H.
  destruct s as [|u s1]; injection H as _ <-; [constructor | inversion Hs; assumption].
Qed.

Lemma keeps_dict_get {V} (d : list (string * V)) (k : string) : keeps (dict_get d k).
Proof.
  induction d as [|[k' v] d IH]; simpl; [apply keeps_raise|].
  destruct (String.eqb k k'); [apply keeps_ret | exact IH].
Qed.

Lemma keeps_py_div (a b : Q) : keeps (py_div a b).
Proof. unfold py_div. destruct (Qeq_bool b 0); [apply keeps_raise | apply keeps_ret]. Qed.

Lemma keeps_for_each {A B} (xs : list A) (body : A -> M (list B)) :
  (forall x, keeps (body x)) -> keeps (for_each xs body).
Proof.
  intros Hb. induction xs as [|x xs IH]; simpl; [apply keeps_ret|].
  apply keeps_bind; [apply Hb|]. intros r. apply keeps_bind; [exact IH|].
  intros rs. apply keeps_ret.
Qed.

Ltac keeps_tac :=
  repeat match goal with
  | |- keeps (bind _ _) => apply keeps_bind; [| intros ?]
  | |- keeps (ret _) => apply keeps_ret
  | |- keeps (random_uniform _ _) => apply keeps_random_uniform
  | |- keeps (dict_get _ _) => apply keeps_dict_get
  | |- keeps (py_div _ _) => apply keeps_py_div
  | |- keeps (for_each _ _) => apply keeps_for_each; intros ?
  | |- keeps (if ?b then _ else _) => destruct b
  | |- keeps (let _ := _ in _) => cbv zeta
  | |- keeps (match ?x with _ => _ end) => destruct x
  end.

Lemma keeps_generators (cs : list country) :
  keeps (load_gdp_data cs) /\ keeps (load_inequality_data cs) /\
  keeps (load_poverty_data cs) /\ keeps (load_trade_education cs).
Proof.
  unfold load_gdp_data, gdp_country_rows, gdp_year_step, group_growth,
    load_inequality_data, ineq_country_rows, ineq_year_step,
    load_poverty_data, pov_country_rows, poverty_bases,
    load_trade_education, trade_country_rows, education_bases, trade_year_step.
  repeat split; keeps_tac.
Qed.

Definition io_keeps {A} (m : IO A) : Prop :=
  forall w, valid_stream (w_rng w) -> valid_stream (w_rng (snd (m w))).

Lemma io_keeps_bind {A B} (m : IO A) (k : A -> IO B) :
  io_keeps m -> (forall a, io_keeps (k a)) -> io_keeps (io_bind m k).
Proof.
  intros Hm Hk w Hw. unfold io_bind. specialize (Hm w Hw).
  destruct (m w) as [[e|a] w'] eqn:E; simpl in Hm |- *; [exact Hm | apply Hk, Hm].
Qed.

Lemma io_keeps_emit (ev : event) : io_keeps (emit ev).
Proof. intros w Hw. exact Hw. Qed.

Lemma io_keeps_ret {A} (a : A) : io_keeps (io_ret a).
Proof. intros w Hw. exact Hw. Qed.

Lemma io_keeps_sample {A} (g : M A) : keeps g -> io_keeps (sample g).
Proof.
  intros Hg w Hw. unfold sample.
  destruct (g (w_rng w)) as [a s'|e] eqn:E; simpl; [eapply Hg; eauto | exact Hw].
Qed.

Lemma io_keeps_to_sql (E : env) (t : string) (rows : list any_row) :
  io_keeps (to_sql_replace E t rows).
Proof. intros w Hw. unfold to_sql_replace. destruct (write_fails E t (w_db w)); exact Hw. Qed.

Lemma io_keeps_count_rows (t : string) : io_keeps (count_rows t).
Proof. intros w Hw. unfold count_rows. destruct (w_db w t); exact Hw. Qed.

Lemma io_keeps_run_schema (E : env) : io_keeps (run_schema E).
Proof.
  intros w Hw. unfold run_schema. destruct (schema_file E) as [text|]; [|exact Hw].
  destruct (executescript E text (w_db w)) as [d' []]; exact Hw.
Qed.

Lemma io_keeps_report_counts (ts : list string) : io_keeps (report_counts ts).
Proof.
  induction ts as [|t ts IH]; simpl; [apply io_keeps_ret|].
  apply io_keeps_bind; [apply io_keeps_count_rows|]. intros n.
  apply io_keeps_bind; [apply io_keeps_emit|]. intros _. exact IH.
Qed.

Lemma io_keeps_try_body (E : env) : io_keeps (try_body E).
Proof.
  unfold try_body, io_load_country_metadata, io_load_gdp_data, io_load_inequality_data,
    io_load_poverty_data, io_load_trade_education, say.
  repeat match goal with
  | |- io_keeps (io_bind _ _) => apply io_keeps_bind; [| intros ?]
  | |- io_keeps (emit _) => apply io_keeps_emit
  | |- io_keeps (io_ret _) => apply io_keeps_ret
  | |- io_keeps (to_sql_replace _ _ _) => apply io_keeps_to_sql
  | |- io_keeps (run_schema _) => apply io_keeps_run_schema
  | |- io_keeps (report_counts _) => apply io_keeps_report_counts
  | |- io_keeps (sample _) => apply io_keeps_sample
  end;
  match goal with
  | |- keeps (load_gdp_data ?cs) => apply (keeps_generators cs)
  | |- keeps (load_inequality_data ?cs) => apply (keeps_generators cs)
  | |- keeps (load_poverty_data ?cs) => apply (keeps_generators cs)
  | |- keeps (load_trade_education ?cs) => apply (keeps_generators cs)
  end.
Qed.

Lemma main_keeps_valid (E : env) (w : world) :
  valid_stream (w_rng w) -> valid_stream (w_rng (snd (main E w))).
Proof.
  intros Hw. unfold main.
  pose proof (io_keeps_try_body E (connect (snd (say "BASIC GLOBAL INEQUALITY DATABASE LOADER" w))) Hw) as H.
  destruct (try_body E _) as [[e|u] w2]; exact H.
Qed.

(** ** Console trace of a run *)

Definition is_print_of (m : string) (ev : event) : bool :=
  match ev with EvPrint m' => String.eqb m m' | _ => false end.

Definition is_close (ev : event) : bool :=
  match ev with EvClose => true | _ => false end.

Definition count_print (m : string) (evs : list event) : nat :=
  List.length (filter (is_print_of m) evs).

Definition count_close (evs : list event) : nat := List.length (filter is_close evs).

Lemma count_print_app m l1 l2 :
  count_print m (l1 ++ l2) = (count_print m l1 + count_print m l2)%nat.
Proof. unfold count_print. rewrite filter_app, length_app. reflexivity. Qed.

Lemma count_close_app l1 l2 : count_close (l1 ++ l2) = (count_close l1 + count_close l2)%nat.
Proof. unfold count_close. rewrite filter_app, length_app. reflexivity. Qed.

(** [f] only appends to the console, prints [m] at most [k] times and
    never closes the connection. *)
Definition prints_at_most {A} (m : string) (k : nat) (f : IO A) : Prop :=
  forall w, exists new, w_out (snd (f w)) = w_out w ++ new /\
                        (count_print m new <= k)%nat /\ count_close new = 0%nat.

Lemma pam_mono {A} m k k' (f : IO A) :
  prints_at_most m k f -> (k <= k')%nat -> prints_at_most m k' f.
Proof.
  intros H Hk w. destruct (H w) as (new & E & C & D). exists new. repeat split; auto; lia.
Qed.

Lemma pam_bind {A B} m k1 k2 (f : IO A) (g : A -> IO B) :
  prints_at_most m k1 f -> (forall a, prints_at_most m k2 (g a)) ->
  prints_at_most m (k1 + k2) (io_bind f g).
Proof.
  intros Hf Hg w. unfold io_bind. destruct (Hf w) as (n1 & E1 & C1 & D1).
  destruct (f w) as [[e|a] w'] eqn:Ef; simpl in E1 |- *.
  - exists n1. repeat split; auto; lia.
  - destruct (Hg a w') as (n2 & E2 & C2 & D2). exists (n1 ++ n2).
    rewrite E2, E1, app_assoc, count_print_app, count_close_app. repeat split; lia.
Qed.

Lemma pam_say m m' : prints_at_most m (if String.eqb m m' then 1 else 0)%nat (say m').
Proof.
  intros w. exists [EvPrint m']. simpl. split; [reflexivity|].
  unfold count_print, count_close; simpl. destruct (String.eqb m m'); simpl; lia.
Qed.

Lemma pam_emit_loaded m t n : prints_at_most m 0 (emit (EvLoaded t n)).
Proof.
  intros w. exists [EvLoaded t n]. split; [reflexivity|]. unfold count_print, count_close.
  simpl. lia.
Qed.

Lemma pam_emit_count m t n : prints_at_most m 0 (emit (EvCount t n)).
Proof.
  intros w. exists [EvCount t n]. split; [reflexivity|]. unfold count_print, count_close.
  simpl. lia.
Qed.

Lemma pam_silent {A} m (f : IO A) :
  (forall w, w_out (snd (f w)) = w_out w) -> prints_at_most m 0 f.
Proof. intros H w. exists []. rewrite app_nil_r. split; [apply H | split; reflexivity]. Qed.

Lemma pam_report_counts m ts : prints_at_most m 0 (report_counts ts).
Proof.
  induction ts as [|t ts IH]; simpl.
  - apply pam_silent. reflexivity.
  - apply (pam_bind m 0 0); [apply pam_silent; intros w; unfold count_rows;
                             destruct (w_db w t); reflexivity|].
    intros n. apply (pam_bind m 0 0); [apply pam_emit_count | intros _; exact IH].
Qed.

Definition stage_messages : list string :=
  [msg_schema; msg_country; msg_gdp; msg_ineq; msg_pov; msg_trade].

Lemma try_body_no_retry (E : env) (m : string) :
  In m stage_messages -> prints_at_most m 1 (try_body E).
Proof.
  intros Hm. simpl in Hm.
  repeat destruct Hm as [<-|Hm]; try contradiction;
  (eapply pam_mono;
   [ unfold try_body, io_load_country_metadata, io_load_gdp_data,
       io_load_inequality_data, io_load_poverty_data, io_load_trade_education;
     repeat match goal with
     | |- prints_at_most _ _ (io_bind _ _) => eapply pam_bind; [| intros ?]
     | |- prints_at_most _ _ (say _) => apply pam_say
     | |- prints_at_most _ _ (emit (EvLoaded _ _)) => apply pam_emit_loaded
     | |- prints_at_most _ _ (report_counts _) => apply pam_report_counts
     | |- prints_at_most _ _ (sample _) =>
         apply pam_silent; intros w; unfold sample;
         match goal with |- context [match ?x with Ok _ _ => _ | Err _ => _ end] =>
           destruct x end; reflexivity
     | |- prints_at_most _ _ (to_sql_replace _ _ _) =>
         apply pam_silent; intros w; unfold to_sql_replace; destruct (write_fails _ _ _);
         reflexivity
     | |- prints_at_most _ _ (run_schema _) =>
         apply pam_silent; intros w; unfold run_schema;
         destruct (schema_file _) as [text|]; [destruct (executescript _ text _) as [? []]|];
         reflexivity
     | |- prints_at_most _ _ (io_ret _) => apply pam_silent; reflexivity
     end
   | vm_compute; lia ]).
Qed.

Lemma main_success_try_body (E : env) (w : world) :
  fst (main E w) = None ->
  exists u w2, try_body E (connect (snd (say "BASIC GLOBAL INEQUALITY DATABASE LOADER" w)))
               = (inr u, w2) /\ snd (main E w) = close w2.
Proof.
  unfold main. destruct (try_body E _) as [[e|u] w2]; simpl; [discriminate|]. eauto.
Qed.

(** A first run of the loader, on any database. *)
Definition rerun (E : env) (n : nat) (w : world) : world :=
  Nat.iter n (fun x => snd (main E x)) w.

Lemma rerun_valid (E : env) (n : nat) (w : world) :
  valid_stream (w_rng w) -> valid_stream (w_rng (rerun E n w)).
Proof.
  intros Hw. unfold rerun. induction n as [|n IH]; simpl; [exact Hw|].
  apply main_keeps_valid, IH.
Qed.

(** C7 *)
(** Claim C7: running the loader again replaces the five tables instead of
    appending to them: after any number [n] of earlier runs (whatever they
    left in the database), a run that completes leaves exactly the row
    counts of a single run: 48, 432, 240, 110 and 432. *)
Theorem rerun_replaces_tables (E : env) (w : world) (n : nat) :
  valid_stream (w_rng w) ->
  fst (main E (rerun E n w)) = None ->
  let d := w_db (snd (main E (rerun E n w))) in
  table_count d "country_metadata" = Some 48%nat /\
  table_count d "gdp_data" = Some 432%nat /\
  table_count d "inequality_metrics" = Some 240%nat /\
  table_count d "poverty_indicators" = Some 110%nat /\
  table_count d "trade_education" = Some 432%nat.
Proof.
  intros Hw Hok d.
  assert (Hv : valid_stream (w_rng (rerun E n w))) by (apply rerun_valid, Hw).
  destruct (main_success_try_body E _ Hok) as (u & w2 & Ht & Hm).
  apply try_body_ok_counts in Ht as (C1 & C2 & C3 & C4 & C5 & _); [|exact Hv].
  unfold d. rewrite Hm. simpl. auto.
Qed.

Definition env_ok : env :=
  mkEnv (Some "CREATE TABLE IF NOT EXISTS country_metadata (country_code TEXT);"%string)
        (fun _ d => (d, false)) (fun _ _ => false).

Definition world0 : world := mkWorld (fun _ => None) [] [] false.

Lemma rerun_replaces_tables_witness :
  valid_stream (w_rng world0) /\
  fst (main env_ok (rerun env_ok 1 world0)) = None /\
  let d := w_db (snd (main env_ok (rerun env_ok 1 world0))) in
  table_count d "country_metadata" = Some 48%nat /\
  table_count d "gdp_data" = Some 432%nat /\
  table_count d "inequality_metrics" = Some 240%nat /\
  table_count d "poverty_indicators" = Some 110%nat /\
  table_count d "trade_education" = Some 432%nat.
Proof.
  assert (Hw : valid_stream (w_rng world0)) by constructor.
  assert (Hok : fst (main env_ok (rerun env_ok 1 world0)) = None) by (vm_compute; reflexivity).
  split; [exact Hw|]. split; [exact Hok|].
  exact (rerun_replaces_tables env_ok world0 1 Hw Hok).
Defined.

(** C8 *)
(** Claim C8: whatever stage raises (the schema file cannot be opened or
    read, the schema script or a table write fails, a count query fails),
    [main] catches it at the top level, prints the error and a traceback,
    does not retry (no stage announces itself twice) and closes the
    connection on every path, success or failure, closing it exactly once
    as the run's last action. *)
Theorem main_reports_errors_and_always_closes (E : env) (w : world) :
  w_conn_open (snd (main E w)) = false /\
  count_close (w_out (snd (main E w))) = S (count_close (w_out w)) /\
  (exists pre, w_out (snd (main E w)) = pre ++ [EvClose]) /\
  (forall e, fst (main E w) = Some e ->
     exists pre, w_out (snd (main E w)) = pre ++ [EvError e; EvTraceback; EvClose]) /\
  (schema_file E = None -> fst (main E w) = Some OSError) /\
  (forall m, In m stage_messages ->
     (count_print m (w_out (snd (main E w))) <= S (count_print m (w_out w)))%nat).
Proof.
  set (w1 := connect (snd (say "BASIC GLOBAL INEQUALITY DATABASE LOADER" w))).
  assert (Hw1 : w_out w1 = w_out w ++ [EvPrint "BASIC GLOBAL INEQUALITY DATABASE LOADER"])
    by reflexivity.
  assert (Hclose : exists new, w_out (snd (try_body E w1)) = w_out w1 ++ new /\
                               count_close new = 0%nat).
  { destruct (try_body_no_retry E msg_schema (or_introl eq_refl) w1) as (new & H1 & _ & H3).
    eauto. }
  assert (Hmain : main E w = match try_body E w1 with
                             | (inr _, w2) => (None, close w2)
                             | (inl e, w2) => (Some e, close (snd (handler e w2)))
                             end) by reflexivity.
  clearbody w1.
  refine (conj _ (conj _ (conj _ (conj _ (conj _ _))))).
  - rewrite Hmain. destruct (try_body E w1) as [[e|u] w2]; reflexivity.
  - destruct Hclose as (new & Hn & Hc). rewrite Hmain.
    destruct (try_body E w1) as [[e|u] w2]; simpl in Hn |- *; rewrite Hn, Hw1;
      rewrite ?count_close_app, Hc; unfold count_close; simpl; lia.
  - rewrite Hmain. destruct (try_body E w1) as [[e|u] w2]; simpl; eexists; reflexivity.
  - intros e He. rewrite Hmain in He |- *.
    destruct (try_body E w1) as [[e'|u] w2]; simpl in He |- *; [|discriminate].
    injection He as <-. exists (w_out w2). rewrite <- !app_assoc. reflexivity.
  - intros Hs. rewrite Hmain.
    assert (Ht : try_body E w1 = (inl OSError, snd (say msg_schema w1))).
    { unfold try_body. unfold io_bind at 1. simpl.
      unfold io_bind at 1. unfold run_schema at 1. rewrite Hs. reflexivity. }
    rewrite Ht. reflexivity.
  - intros m Hm.
    destruct (try_body_no_retry E m Hm w1) as (new & Hn & Hc & _).
    assert (Hb : count_print m [EvPrint "BASIC GLOBAL INEQUALITY DATABASE LOADER"] = 0%nat).
    { simpl in Hm. repeat destruct Hm as [<-|Hm]; try contradiction; reflexivity. }
    rewrite Hmain.
    destruct (try_body E w1) as [[e|u] w2]; simpl in Hn |- *; rewrite Hn, Hw1;
      rewrite ?count_print_app, Hb; unfold count_print in *; simpl; lia.
Qed.

(* ================================================================== *)
(** * Further properties of the generators and of the run *)

(** ** GDP: growth columns, the 2015 record, signs *)

(** The growth range of each branch of the [if/elif/else] chain of
    [load_gdp_data] (the [else] branch covers every other group). *)
Definition growth_range (ig : string) : Q * Q :=
  if String.eqb ig HI then (1, 3)
  else if String.eqb ig UMI then (3, 7)
  else if String.eqb ig LMI then (4, 8)
  else (3, 6).

Lemma group_growth_range_sound (ig : string) :
  sound valid_stream (group_growth ig)
        (fun g => fst (growth_range ig) <= g /\ g <= snd (growth_range ig)).
Proof.
  unfold group_growth, growth_range.
  destruct (String.eqb ig HI); [|destruct (String.eqb ig UMI); [|destruct (String.eqb ig LMI)]];
    cbn [fst snd]; apply sound_uniform_range; lra.
Qed.

Definition gdp_row_full (c : country) (r : gdp_row) : Prop :=
  exists lo hi base_gdp growth,
    In (income_group c, (lo, hi)) gdp_ranges /\ lo <= base_gdp /\ base_gdp <= hi /\
    gdp_country r = country_code c /\ In (gdp_year r) (py_range 2015 2024) /\
    gdp_per_capita_current_usd r = round2 (gdp_value base_gdp growth (gdp_year r)) /\
    gdp_growth_annual_pct r = round2 growth /\
    (gdp_year r = 2020%Z -> -5 <= growth /\ growth <= -2) /\
    (gdp_year r <> 2020%Z ->
       fst (growth_range (income_group c)) <= growth /\
       growth <= snd (growth_range (income_group c))).

Lemma gdp_year_step_full (c : country) (base_gdp : Q) (year : Z) :
  sound valid_stream (gdp_year_step (country_code c) (income_group c) base_gdp year)
        (fun rows => exists r growth, rows = [r] /\ gdp_year r = year /\
           gdp_country r = country_code c /\
           gdp_per_capita_current_usd r = round2 (gdp_value base_gdp growth year) /\
           gdp_growth_annual_pct r = round2 growth /\
           (year = 2020%Z -> -5 <= growth /\ growth <= -2) /\
           (year <> 2020%Z ->
              fst (growth_range (income_group c)) <= growth /\
              growth <= snd (growth_range (income_group c)))).
Proof.
  unfold gdp_year_step.
  apply sound_bind with (1 := group_growth_range_sound (income_group c)).
  intros g0 Hg0.
  destruct (Z.eqb year 2020) eqn:Ey.
  - apply Z.eqb_eq in Ey.
    apply sound_bind with (P := fun v => -5 <= v /\ v <= -2); [apply sound_uniform_range; lra|].
    intros g Hg. apply sound_ret. exists (mkGdpRow (country_code c) year
      (round2 (gdp_value base_gdp g year)) (round2 g)), g.
    simpl. repeat (split; [reflexivity|]). split; [intros _; exact Hg | intros H; contradiction].
  - apply Z.eqb_neq in Ey.
    apply sound_bind with (P := fun v => v = g0); [apply sound_ret; reflexivity|].
    intros g ->. apply sound_ret. exists (mkGdpRow (country_code c) year
      (round2 (gdp_value base_gdp g0 year)) (round2 g0)), g0.
    simpl. repeat (split; [reflexivity|]). split; [intros H; contradiction | intros _; exact Hg0].
Qed.

Lemma gdp_country_rows_full (c : country) :
  In (income_group c) income_group_names ->
  sound valid_stream (gdp_country_rows c) (fun rows => forall r, In r rows -> gdp_row_full c r).
Proof.
  intros Hig. unfold gdp_country_rows.
  destruct (gdp_range_of _ Hig) as (lo & hi & -> & Hin & Hlh).
  apply sound_bind with (P := fun rng => rng = (lo, hi)); [apply sound_ret; reflexivity|].
  intros rng ->. simpl fst; simpl snd.
  apply sound_bind with (P := fun v => lo <= v /\ v <= hi); [apply sound_uniform_range, Hlh|].
  intros base Hbase.
  eapply sound_weaken; [apply sound_for_each; intros y _; apply gdp_year_step_full|].
  intros rows (bs & -> & Hbs) r Hr.
  destruct (Forall2_concat_in _ _ _ _ Hbs Hr) as (y & b & Hy & Hrb & r' & g & -> & Hok).
  destruct Hrb as [<-|[]]. destruct Hok as (Hyr & Hc & Hv & Hgr & H20 & Hn20).
  exists lo, hi, base, g. rewrite Hyr.
  exact (conj Hin (conj (proj1 Hbase) (conj (proj2 Hbase) (conj Hc (conj Hy
           (conj Hv (conj Hgr (conj H20 Hn20)))))))).
Qed.

Lemma load_gdp_data_full (cs : list country) (s : list Q) :
  valid_stream s ->
  (forall c, In c cs -> In (income_group c) income_group_names) ->
  exists rows s', load_gdp_data cs s = Ok rows s' /\
    forall r, In r rows -> exists c, In c cs /\ gdp_row_full c r.
Proof.
  intros Hs Hcs.
  assert (H : sound valid_stream (load_gdp_data cs)
                (fun rows => forall r, In r rows -> exists c, In c cs /\ gdp_row_full c r)).
  { apply sound_for_each_rows. intros c Hc. apply gdp_country_rows_full, Hcs, Hc. }
  destruct (H s Hs) as (rows & s' & E & _ & Hr). eauto.
Qed.

Lemma round2_int_range (lo hi : Z) (x : Q) :
  inject_Z lo <= x -> x <= inject_Z hi -> inject_Z lo <= round2 x /\ round2 x <= inject_Z hi.
Proof.
  intros H1 H2.
  assert (E1 : inject_Z lo == (lo * 100)%Z # 100) by (unfold Qeq; simpl; lia).
  assert (E2 : inject_Z hi == (hi * 100)%Z # 100) by (unfold Qeq; simpl; lia).
  rewrite E1, E2 in *. split; [apply round2_ge | apply round2_le]; assumption.
Qed.

(** X1 *)
(** Every GDP record stores a growth rate drawn from its income group's
    branch: [1, 3] for High income, [3, 7] for Upper middle income, [4, 8]
    for Lower middle income and [3, 6] otherwise, except the 2020 record,
    whose stored growth lies in [-5, -2] instead. *)
Theorem gdp_growth_column_in_group_range (cs : list country) (s : list Q) :
  valid_stream s ->
  (forall c, In c cs -> In (income_group c) income_group_names) ->
  exists rows s', load_gdp_data cs s = Ok rows s' /\
    forall r, In r rows -> exists c, In c cs /\ gdp_country r = country_code c /\
      (gdp_year r = 2020%Z -> -5 <= gdp_growth_annual_pct r /\ gdp_growth_annual_pct r <= -2) /\
      (gdp_year r <> 2020%Z ->
         fst (growth_range (income_group c)) <= gdp_growth_annual_pct r /\
         gdp_growth_annual_pct r <= snd (growth_range (income_group c))).
Proof.
  intros Hs Hcs. destruct (load_gdp_data_full cs s Hs Hcs) as (rows & s' & E & Hr).
  exists rows, s'. split; [exact E|]. intros r Hin.
  destruct (Hr r Hin) as (c & Hc & lo & hi & base & g & _ & _ & _ & Hcode & _ & _ & Hgr & H20 & Hn20).
  exists c. split; [exact Hc|]. split; [exact Hcode|]. rewrite Hgr. split.
  - intros Hy. destruct (H20 Hy) as [Ha Hb].
    apply (round2_int_range (-5) (-2)); assumption.
  - intros Hy. destruct (Hn20 Hy) as [Ha Hb].
    assert (Hi : In (growth_range (income_group c)) [(1,3); (3,7); (4,8); (3,6)]).
    { unfold growth_range. destruct (String.eqb _ HI); [|destruct (String.eqb _ UMI);
        [|destruct (String.eqb _ LMI)]]; simpl; tauto. }
    simpl in Hi. repeat destruct Hi as [Hi|Hi]; try contradiction; rewrite <- Hi in *;
      simpl in *; [apply (round2_int_range 1 3) | apply (round2_int_range 3 7)
                  | apply (round2_int_range 4 8) | apply (round2_int_range 3 6)]; assumption.
Qed.

Lemma gdp_growth_column_in_group_range_witness :
  valid_stream [1 # 2] /\
  (forall c, In c countries -> In (income_group c) income_group_names) /\
  exists rows s', load_gdp_data countries [1 # 2] = Ok rows s' /\
    forall r, In r rows -> exists c, In c countries /\ gdp_country r = country_code c /\
      (gdp_year r = 2020%Z -> -5 <= gdp_growth_annual_pct r /\ gdp_growth_annual_pct r <= -2) /\
      (gdp_year r <> 2020%Z ->
         fst (growth_range (income_group c)) <= gdp_growth_annual_pct r /\
         gdp_growth_annual_pct r <= snd (growth_range (income_group c))).
Proof.
  assert (Hs : valid_stream [1 # 2]) by (repeat constructor; unfold Qle; simpl; lia).
  split; [exact Hs|]. split; [exact catalog_income_groups|].
  apply (gdp_growth_column_in_group_range countries _ Hs catalog_income_groups).
Defined.

(** X2 *)
(** The 2015 record of a country stores its drawn base GDP per capita
    itself, rounded (the exponent [year - 2015] is 0, so the growth drawn
    for 2015 does not enter it), and that value lies in the income group's
    range of [gdp_ranges]. *)
Theorem gdp_2015_is_rounded_base (cs : list country) (s : list Q) :
  valid_stream s ->
  (forall c, In c cs -> In (income_group c) income_group_names) ->
  exists rows s', load_gdp_data cs s = Ok rows s' /\
    forall r, In r rows -> gdp_year r = 2015%Z ->
      exists c lo hi base_gdp, In c cs /\ gdp_country r = country_code c /\
        In (income_group c, (lo, hi)) gdp_ranges /\ lo <= base_gdp /\ base_gdp <= hi /\
        gdp_per_capita_current_usd r = round2 base_gdp /\
        lo <= gdp_per_capita_current_usd r /\ gdp_per_capita_current_usd r <= hi.
Proof.
  intros Hs Hcs. destruct (load_gdp_data_full cs s Hs Hcs) as (rows & s' & E & Hr).
  exists rows, s'. split; [exact E|]. intros r Hin Hy.
  destruct (Hr r Hin) as (c & Hc & lo & hi & base & g & Hlh & H1 & H2 & Hcode & _ & Hv & _).
  assert (Hb : gdp_per_capita_current_usd r = round2 base).
  { rewrite Hv, Hy. apply round2_compat. unfold gdp_value. simpl. ring. }
  exists c, lo, hi, base. repeat (split; [assumption|]).
  assert (Hlo : In (lo, hi) [(40000, 80000); (8000, 20000); (2000, 8000); (500, 2000)]).
  { apply (in_map snd) in Hlh. exact Hlh. }
  rewrite Hb. simpl in Hlo.
  repeat destruct Hlo as [Hlo|Hlo]; try contradiction; injection Hlo as <- <-;
  [apply (round2_int_range 40000 80000) | apply (round2_int_range 8000 20000)
  | apply (round2_int_range 2000 8000) | apply (round2_int_range 500 2000)]; assumption.
Qed.

Lemma gdp_2015_is_rounded_base_witness :
  valid_stream [1 # 4] /\
  (forall c, In c countries -> In (income_group c) income_group_names) /\
  exists rows s', load_gdp_data countries [1 # 4] = Ok rows s' /\
    forall r, In r rows -> gdp_year r = 2015%Z ->
      exists c lo hi base_gdp, In c countries /\ gdp_country r = country_code c /\
        In (income_group c, (lo, hi)) gdp_ranges /\ lo <= base_gdp /\ base_gdp <= hi /\
        gdp_per_capita_current_usd r = round2 base_gdp /\
        lo <= gdp_per_capita_current_usd r /\ gdp_per_capita_current_usd r <= hi.
Proof.
  assert (Hs : valid_stream [1 # 4]) by (repeat constructor; unfold Qle; simpl; lia).
  split; [exact Hs|]. split; [exact catalog_income_groups|].
  apply (gdp_2015_is_rounded_base countries _ Hs catalog_income_groups).
Defined.

(** X3 *)
(** No stored GDP per capita is negative: every drawn growth rate is at
    least -5, so the compounding factor [1 + growth/100] stays positive. *)
Theorem gdp_per_capita_nonnegative (cs : list country) (s : list Q) :
  valid_stream s ->
  (forall c, In c cs -> In (income_group c) income_group_names) ->
  exists rows s', load_gdp_data cs s = Ok rows s' /\
    forall r, In r rows -> 0 <= gdp_per_capita_current_usd r.
Proof.
  intros Hs Hcs. destruct (load_gdp_data_full cs s Hs Hcs) as (rows & s' & E & Hr).
  exists rows, s'. split; [exact E|]. intros r Hin.
  destruct (Hr r Hin) as (c & Hc & lo & hi & base & g & Hlh & H1 & H2 & _ & _ & Hv & _ & H20 & Hn20).
  assert (Hg : -5 <= g).
  { destruct (Z.eq_dec (gdp_year r) 2020) as [Hy|Hy]; [apply H20, Hy|].
    destruct (Hn20 Hy) as [Ha _]. unfold growth_range in Ha.
    destruct (String.eqb _ HI); [|destruct (String.eqb _ UMI);
      [|destruct (String.eqb _ LMI)]]; simpl in Ha; lra. }
  assert (Hlo : 0 <= lo).
  { apply (in_map snd) in Hlh. simpl in Hlh.
    repeat destruct Hlh as [Hlh|Hlh]; try contradiction; injection Hlh as <- <-; lra. }
  assert (Hx : 0 <= gdp_value base g (gdp_year r)).
  { unfold gdp_value. apply Qmult_le_0_compat; [lra|]. apply Qpower_0_le.
    assert (Hq : -5 / 100 <= g / 100) by (apply Qmult_le_compat_r; [exact Hg | discriminate]).
    assert (E5 : -5 / 100 == -(5 # 100)) by reflexivity. lra. }
  assert (H0 : (0 # 100) <= round2 (gdp_value base g (gdp_year r))) by (apply round2_ge; lra).
  rewrite Hv. lra.
Qed.

(** ** Which generators raise, and on what *)

Lemma dict_get_missing {V} (d : list (string * V)) (k : string) (s : list Q) :
  ~ In k (map fst d) -> dict_get d k s = Err KeyError.
Proof.
  induction d as [|[k' v] d IH]; simpl; intros Hk; [reflexivity|].
  destruct (String.eqb k k') eqn:E.
  - apply String.eqb_eq in E. subst. exfalso. apply Hk. left. reflexivity.
  - apply IH. intros H. apply Hk. right. exact H.
Qed.

(** A loop whose body succeeds on the [good] elements and raises [e0] on
    the others raises exactly when some element is not [good], and then
    raises [e0]. *)
Lemma for_each_raise_iff {A B} (I : list Q -> Prop) (xs : list A) (body : A -> M (list B))
      (good : A -> bool) (e0 : exc) :
  (forall x, good x = true -> sound I (body x) (fun _ => True)) ->
  (forall x s, good x = false -> body x s = Err e0) ->
  forall s, I s ->
  forall e, for_each xs body s = Err e <-> (e = e0 /\ exists x, In x xs /\ good x = false).
Proof.
  intros Hg Hb. induction xs as [|x xs IH]; intros s Hs e; cbn [for_each].
  - unfold ret. split; [discriminate | intros (_ & y & [] & _)].
  - unfold bind at 1. destruct (good x) eqn:Ex.
    + destruct (Hg x Ex s Hs) as (a & s1 & E1 & Hs1 & _). rewrite E1.
      unfold bind. specialize (IH s1 Hs1 e).
      destruct (for_each xs body s1) as [rs s2|e'] eqn:E2.
      * unfold ret. split; [discriminate|]. intros [He (y & [<-|Hy] & Hgy)].
        -- congruence.
        -- exfalso. assert (Hc : Ok rs s2 = Err e) by (apply IH; eauto). discriminate Hc.
      * rewrite IH. split.
        -- intros [He (y & Hy & Hgy)].
           split; [exact He | exists y; split; [right; exact Hy | exact Hgy]].
        -- intros [He (y & [<-|Hy] & Hgy)]; [congruence|].
           split; [exact He | exists y; split; [exact Hy | exact Hgy]].
    + rewrite (Hb x s Ex). split.
      * intros H. injection H as <-.
        split; [reflexivity | exists x; split; [left; reflexivity | exact Ex]].
      * intros [-> _]. reflexivity.
Qed.

Definition str_in (k : string) (ks : list string) : bool :=
  if in_dec string_dec k ks then true else false.

Lemma str_in_false (k : string) (ks : list string) : str_in k ks = false <-> ~ In k ks.
Proof.
  unfold str_in. destruct (in_dec string_dec k ks); split; intros H; auto; try discriminate.
  contradiction.
Qed.

Lemma str_in_true (k : string) (ks : list string) : str_in k ks = true -> In k ks.
Proof. unfold str_in. destruct (in_dec string_dec k ks); [auto | discriminate]. Qed.

(** X4 *)
(** [load_gdp_data] raises exactly when some country's income group is
    not a key of [gdp_ranges] (the lookup [gdp_ranges[income_group]]),
    and what it raises then is [KeyError]; no other exception is
    possible. *)
Theorem gdp_unknown_income_group_key_error (cs : list country) (s : list Q) :
  valid_stream s ->
  forall e, load_gdp_data cs s = Err e <->
    (e = KeyError /\ exists c, In c cs /\ ~ In (income_group c) (map fst gdp_ranges)).
Proof.
  intros Hs e. unfold load_gdp_data.
  rewrite (for_each_raise_iff valid_stream cs gdp_country_rows
             (fun c => str_in (income_group c) (map fst gdp_ranges)) KeyError); [| | |exact Hs].
  - split; intros [He (c & Hc & Hg)]; split; auto; exists c; split; auto;
      apply str_in_false; assumption.
  - intros c Hc. eapply sound_weaken; [apply gdp_country_rows_sound, str_in_true, Hc|]. auto.
  - intros c s' Hc. apply str_in_false in Hc. unfold gdp_country_rows, bind.
    rewrite dict_get_missing by exact Hc. reflexivity.
Qed.

Lemma gdp_unknown_income_group_key_error_witness :
  valid_stream [0] /\
  forall e, load_gdp_data (countries ++ [mkCountry "XKX" "Kosovo" ECA "Upper-middle"]) [0]
              = Err e <->
    (e = KeyError /\ exists c, In c (countries ++ [mkCountry "XKX" "Kosovo" ECA "Upper-middle"])
                              /\ ~ In (income_group c) (map fst gdp_ranges)).
Proof.
  assert (Hs : valid_stream [0]) by (repeat constructor; unfold Qle; simpl; lia).
  split; [exact Hs | apply (gdp_unknown_income_group_key_error _ _ Hs)].
Defined.

(** X5 *)
(** [load_inequality_data] raises exactly when some country's region is
    not a key of [gini_ranges], and then raises [KeyError]: the Palma
    division never raises, so no [ZeroDivisionError] is possible. *)
Theorem inequality_unknown_region_key_error (cs : list country) (s : list Q) :
  valid_stream s ->
  forall e, load_inequality_data cs s = Err e <->
    (e = KeyError /\ exists c, In c cs /\ ~ In (region c) (map fst gini_ranges)).
Proof.
  intros Hs e. unfold load_inequality_data.
  rewrite (for_each_raise_iff valid_stream cs ineq_country_rows
             (fun c => str_in (region c) (map fst gini_ranges)) KeyError); [| | |exact Hs].
  - split; intros [He (c & Hc & Hg)]; split; auto; exists c; split; auto;
      apply str_in_false; assumption.
  - intros c Hc. eapply sound_weaken; [apply ineq_country_rows_sound, str_in_true, Hc|]. auto.
  - intros c s' Hc. apply str_in_false in Hc. unfold ineq_country_rows, bind.
    rewrite dict_get_missing by exact Hc. reflexivity.
Qed.

Lemma inequality_unknown_region_key_error_witness :
  valid_stream [0] /\
  forall e, load_inequality_data [mkCountry "ATA" "Antarctica" "Antarctica" HI] [0]
              = Err e <->
    (e = KeyError /\ exists c, In c [mkCountry "ATA" "Antarctica" "Antarctica" HI]
                              /\ ~ In (region c) (map fst gini_ranges)).
Proof.
  assert (Hs : valid_stream [0]) by (repeat constructor; unfold Qle; simpl; lia).
  split; [exact Hs | apply (inequality_unknown_region_key_error _ _ Hs)].
Defined.

(** ** Countries outside the named income groups *)

(** [m] returns from every stream, valid or not. *)
Definition total {A} (m : M A) : Prop := forall s, exists a s', m s = Ok a s'.

Lemma total_ret {A} (a : A) : total (ret a).
Proof. intros s. exists a, s. reflexivity. Qed.

Lemma total_bind {A B} (m : M A) (k : A -> M B) :
  total m -> (forall a, total (k a)) -> total (bind m k).
Proof.
  intros Hm Hk s. destruct (Hm s) as (a & s1 & E1). destruct (Hk a s1) as (b & s2 & E2).
  exists b, s2. unfold bind. rewrite E1. exact E2.
Qed.

Lemma total_random_uniform (a b : Q) : total (random_uniform a b).
Proof. intros [|u s]; eexists _, _; reflexivity. Qed.

Lemma total_for_each {A B} (xs : list A) (body : A -> M (list B)) :
  (forall x, total (body x)) -> total (for_each xs body).
Proof.
  intros Hb. induction xs as [|x xs IH]; cbn [for_each]; [apply total_ret|].
  apply total_bind; [apply Hb|]. intros r. apply total_bind; [exact IH|].
  intros rs. apply total_ret.
Qed.

Ltac total_tac :=
  repeat match goal with
  | |- total (bind _ _) => apply total_bind; [| intros ?]
  | |- total (ret _) => apply total_ret
  | |- total (random_uniform _ _) => apply total_random_uniform
  | |- total (for_each _ _) => apply total_for_each; intros ?
  | |- total (if ?b then _ else _) => destruct b
  | |- total (let _ := _ in _) => cbv zeta
  | |- total (match ?x with _ => _ end) => destruct x
  end.

Lemma pov_country_rows_skip (c : country) (s : list Q) :
  has_poverty_data (income_group c) = false -> pov_country_rows c s = Ok [] s.
Proof. intros H. unfold pov_country_rows. rewrite H. reflexivity. Qed.

(** X6 *)
(** [load_poverty_data] never raises, for any countries and any draws,
    and a country outside Low, Lower middle and Upper middle income (High
    income, or any other label) neither adds rows nor consumes draws:
    running it on the countries with poverty data only gives the same
    rows and leaves the same stream. *)
Theorem poverty_skips_other_groups (cs : list country) (s : list Q) :
  load_poverty_data (filter (fun c => has_poverty_data (income_group c)) cs) s
    = load_poverty_data cs s /\
  exists rows s', load_poverty_data cs s = Ok rows s'.
Proof.
  split.
  - unfold load_poverty_data. revert s. induction cs as [|c cs IH]; intros s; [reflexivity|].
    cbn [filter]. destruct (has_poverty_data (income_group c)) eqn:Eh.
    + cbn [for_each]. unfold bind at 1 3.
      destruct (pov_country_rows c s) as [r s1|e]; [|reflexivity].
      unfold bind. rewrite IH. reflexivity.
    + rewrite IH. cbn [for_each]. unfold bind. rewrite pov_country_rows_skip by exact Eh.
      destruct (for_each cs pov_country_rows s) as [rs s2|e]; reflexivity.
  - assert (H : total (load_poverty_data cs)).
    { unfold load_poverty_data, pov_country_rows, poverty_bases. total_tac. }
    apply H.
Qed.

(** The income group the [else] branches of [load_trade_education] give
    a country: its own if it is High, Upper middle or Lower middle
    income, Low income otherwise. *)
Definition as_low_income (c : country) : country :=
  if existsb (String.eqb (income_group c)) [HI; UMI; LMI] then c
  else mkCountry (country_code c) (country_name c) (region c) LI.

Lemma trade_country_rows_as_low_income (c : country) (s : list Q) :
  trade_country_rows (as_low_income c) s = trade_country_rows c s.
Proof.
  unfold as_low_income. destruct (existsb _ _) eqn:Ex; [reflexivity|].
  simpl in Ex. apply orb_false_iff in Ex as [E1 Ex].
  apply orb_false_iff in Ex as [E2 Ex]. apply orb_false_iff in Ex as [E3 _].
  unfold trade_country_rows, education_bases. cbn [income_group country_code].
  rewrite E1, E2, E3. reflexivity.
Qed.

(** X7 *)
(** [load_trade_education] never raises, for any countries and any
    draws, and it treats a country whose income group is none of High,
    Upper middle or Lower middle income (a typo, a missing value) exactly
    as a Low income country: relabelling such countries Low income
    changes neither the rows nor the draws consumed. *)
Theorem trade_unknown_group_as_low_income (cs : list country) (s : list Q) :
  load_trade_education (map as_low_income cs) s = load_trade_education cs s /\
  exists rows s', load_trade_education cs s = Ok rows s'.
Proof.
  split.
  - unfold load_trade_education. revert s. induction cs as [|c cs IH]; intros s; [reflexivity|].
    cbn [map for_each]. unfold bind at 1 3. rewrite trade_country_rows_as_low_income.
    destruct (trade_country_rows c s) as [r s1|e]; [|reflexivity].
    unfold bind. rewrite IH. reflexivity.
  - assert (H : total (load_trade_education cs)).
    { unfold load_trade_education, trade_country_rows, education_bases, trade_year_step.
      total_tac. }
    apply H.
Qed.

(** ** Inequality: stored shares, Palma ratios and the Gini clamp *)

(** X8 *)
(** Every inequality record stores a lowest 20% share in [4, 9], a
    highest 20% share in [40, 55] and a Palma ratio in [2.22, 6.88]
    (the ratio [high / (2 * low)] lies in [40/18, 55/8]). *)
Theorem inequality_shares_and_palma_ranges (cs : list country) (s : list Q) :
  valid_stream s ->
  (forall c, In c cs -> In (region c) (map fst gini_ranges)) ->
  exists rows s', load_inequality_data cs s = Ok rows s' /\
    forall r, In r rows ->
      4 <= income_share_lowest_20pct r /\ income_share_lowest_20pct r <= 9 /\
      40 <= income_share_highest_20pct r /\ income_share_highest_20pct r <= 55 /\
      (222 # 100) <= palma_ratio r /\ palma_ratio r <= (688 # 100).
Proof.
  intros Hs Hcs.
  assert (H : sound valid_stream (load_inequality_data cs)
            (fun rows => forall r, In r rows -> exists c, In c cs /\
               ineq_record_ok (country_code c) (ineq_year r) r)).
  { apply sound_for_each_rows. intros c Hc.
    eapply sound_weaken; [apply ineq_country_rows_sound, Hcs, Hc|].
    intros rows [_ Hr]. exact Hr. }
  destruct (H s Hs) as (rows & s' & E & _ & Hrows).
  exists rows, s'. split; [exact E|]. intros r Hr.
  destruct (Hrows r Hr) as (c & _ & _ & _ & _ & _ & low & high & L1 & L2 & H1 & H2 & El & Eh & Ep).
  rewrite El, Eh, Ep.
  assert (Hp1 : (222 # 100) <= high / (2 * low)).
  { apply Qle_shift_div_l; lra. }
  assert (Hp2 : high / (2 * low) <= (688 # 100)).
  { apply Qle_shift_div_r; lra. }
  destruct (round2_int_range 4 9 low) as [A1 A2]; [assumption | assumption |].
  destruct (round2_int_range 40 55 high) as [B1 B2]; [assumption | assumption |].
  refine (conj A1 (conj A2 (conj B1 (conj B2 (conj _ _))))).
  - apply round2_ge, Hp1.
  - apply round2_le, Hp2.
Qed.

Lemma inequality_shares_and_palma_ranges_witness :
  valid_stream [1; 1 # 2] /\
  (forall c, In c countries -> In (region c) (map fst gini_ranges)) /\
  exists rows s', load_inequality_data countries [1; 1 # 2] = Ok rows s' /\
    forall r, In r rows ->
      4 <= income_share_lowest_20pct r /\ income_share_lowest_20pct r <= 9 /\
      40 <= income_share_highest_20pct r /\ income_share_highest_20pct r <= 55 /\
      (222 # 100) <= palma_ratio r /\ palma_ratio r <= (688 # 100).
Proof.
  assert (Hs : valid_stream [1; 1 # 2]) by (repeat constructor; unfold Qle; simpl; lia).
  split; [exact Hs|]. split; [exact catalog_regions|].
  apply (inequality_shares_and_palma_ranges countries _ Hs catalog_regions).
Defined.

Lemma py_clamp_id (x : Q) : 20 <= x -> x <= 70 -> py_max 20 (py_min 70 x) == x.
Proof.
  intros H1 H2. unfold py_min, py_max.
  destruct (Qle_bool 70 x) eqn:E1.
  - apply Qle_bool_iff in E1. assert (Hx : x == 70) by lra.
    destruct (Qle_bool 70 20) eqn:E2; [apply Qle_bool_iff in E2; lra|]. rewrite Hx. reflexivity.
  - destruct (Qle_bool x 20) eqn:E2; [|reflexivity].
    apply Qle_bool_iff in E2. lra.
Qed.

Lemma ineq_year_step_gini (code : string) (base_gini : Q) (year : Z) :
  sound valid_stream (ineq_year_step code base_gini year)
        (fun rows => exists r noise, rows = [r] /\ -3 <= noise /\ noise <= 3 /\
           gini_coefficient r = round2 (py_max 20 (py_min 70 (base_gini + noise)))).
Proof.
  unfold ineq_year_step.
  apply sound_bind with (P := fun v => -3 <= v /\ v <= 3); [apply sound_uniform_range; lra|].
  intros noise Hn.
  apply sound_bind with (P := fun v => 4 <= v /\ v <= 9); [apply sound_uniform_range; lra|].
  intros low Hlow.
  apply sound_bind with (P := fun _ => True); [apply sound_uniform_any_value; lra|].
  intros high _.
  rewrite py_div_nonzero by lra.
  apply sound_bind with (P := fun _ => True); [apply sound_ret; exact I|].
  intros q _. apply sound_ret. eexists _, noise. split; [reflexivity|].
  split; [apply Hn|]. split; [apply Hn | reflexivity].
Qed.

Lemma gini_range_in (rg : string) :
  In rg (map fst gini_ranges) ->
  exists lo hi, dict_get gini_ranges rg = ret (lo, hi) /\ In (rg, (lo, hi)) gini_ranges /\
                25 <= lo /\ lo <= hi /\ hi <= 65.
Proof.
  simpl. intros H; repeat destruct H as [<-|H]; try contradiction;
    eexists _, _; (split; [reflexivity|]); (split; [simpl; tauto|]); lra.
Qed.

(** X9 *)
(** The clamp [max(20, min(70, gini))] of [load_inequality_data] never
    changes a value: every region's base range lies within [25, 65] and
    the yearly noise within [-3, 3], so each stored Gini coefficient is
    simply [round(base_gini + noise, 2)] for the country's base and that
    record's noise. *)
Theorem gini_clamp_never_binds (cs : list country) (s : list Q) :
  valid_stream s ->
  (forall c, In c cs -> In (region c) (map fst gini_ranges)) ->
  exists rows s', load_inequality_data cs s = Ok rows s' /\
    forall r, In r rows -> exists c lo hi base_gini noise,
      In c cs /\ In (region c, (lo, hi)) gini_ranges /\
      lo <= base_gini /\ base_gini <= hi /\ -3 <= noise /\ noise <= 3 /\
      gini_coefficient r = round2 (base_gini + noise).
Proof.
  intros Hs Hcs.
  assert (H : sound valid_stream (load_inequality_data cs)
            (fun rows => forall r, In r rows -> exists c, In c cs /\
               exists lo hi base_gini noise, In (region c, (lo, hi)) gini_ranges /\
               lo <= base_gini /\ base_gini <= hi /\ -3 <= noise /\ noise <= 3 /\
               gini_coefficient r = round2 (base_gini + noise))).
  { apply sound_for_each_rows. intros c Hc. unfold ineq_country_rows.
    destruct (gini_range_in _ (Hcs c Hc)) as (lo & hi & -> & Hin & Hlo & Hlh & Hhi).
    apply sound_bind with (P := fun rng => rng = (lo, hi)); [apply sound_ret; reflexivity|].
    intros rng ->. simpl fst; simpl snd.
    apply sound_bind with (P := fun v => lo <= v /\ v <= hi); [apply sound_uniform_range, Hlh|].
    intros base Hb.
    eapply sound_weaken; [apply sound_for_each; intros y _; apply ineq_year_step_gini|].
    intros rows (bs & -> & Hbs) r Hr.
    destruct (Forall2_concat_in _ _ _ _ Hbs Hr) as (y & b & _ & Hrb & r' & noise & -> & N1 & N2 & Hg).
    destruct Hrb as [<-|[]].
    exists lo, hi, base, noise. rewrite Hg.
    refine (conj Hin (conj (proj1 Hb) (conj (proj2 Hb) (conj N1 (conj N2 _))))).
    apply round2_compat, py_clamp_id; lra. }
  destruct (H s Hs) as (rows & s' & E & _ & Hrows).
  exists rows, s'. split; [exact E|]. intros r Hr.
  destruct (Hrows r Hr) as (c & Hc & lo & hi & base & noise & Hrest). exists c, lo, hi, base, noise.
  split; [exact Hc | exact Hrest].
Qed.

Lemma gini_clamp_never_binds_witness :
  valid_stream [0; 1] /\
  (forall c, In c countries -> In (region c) (map fst gini_ranges)) /\
  exists rows s', load_inequality_data countries [0; 1] = Ok rows s' /\
    forall r, In r rows -> exists c lo hi base_gini noise,
      In c countries /\ In (region c, (lo, hi)) gini_ranges /\
      lo <= base_gini /\ base_gini <= hi /\ -3 <= noise /\ noise <= 3 /\
      gini_coefficient r = round2 (base_gini + noise).
Proof.
  assert (Hs : valid_stream [0; 1]) by (repeat constructor; unfold Qle; simpl; lia).
  split; [exact Hs|]. split; [exact catalog_regions|].
  apply (gini_clamp_never_binds countries _ Hs catalog_regions).
Defined.

(** ** Trade and education: ranges and trends *)

Lemma education_gov_sound (ig : string) :
  sound valid_stream (education_bases ig) (fun b => 2 <= snd b /\ snd b <= 6).
Proof.
  unfold education_bases.
  destruct (String.eqb ig HI); [|destruct (String.eqb ig UMI); [|destruct (String.eqb ig LMI)]];
  (apply sound_bind with (P := fun _ => True); [apply sound_uniform_any_value; lra|];
   intros b1 _;
   apply sound_bind with (P := fun _ => True); [apply sound_uniform_any_value; lra|];
   intros b2 _;
   apply sound_bind with (P := fun v => 2 <= v /\ v <= 6); [eapply sound_weaken;
     [apply sound_uniform_range; lra | simpl; intros; lra]|];
   intros b3 H3; apply sound_ret; exact H3).
Qed.

(** X10 *)
(** For any countries, whatever their income group, every stored trade
    share lies in [30, 160] ([40, 150] plus noise in [-10, 10]) and every
    stored education expenditure share in [1.5, 6.5] (a group base in
    [2, 6] plus noise in [-0.5, 0.5]). *)
Theorem trade_and_expenditure_ranges (cs : list country) (s : list Q) :
  valid_stream s ->
  exists rows s', load_trade_education cs s = Ok rows s' /\
    forall r, In r rows ->
      30 <= trade_pct_gdp r /\ trade_pct_gdp r <= 160 /\
      (150 # 100) <= government_expenditure_education_pct r /\
      government_expenditure_education_pct r <= (650 # 100).
Proof.
  intros Hs.
  assert (H : sound valid_stream (load_trade_education cs)
            (fun rows => forall r, In r rows -> exists c, In c cs /\
               30 <= trade_pct_gdp r /\ trade_pct_gdp r <= 160 /\
               (150 # 100) <= government_expenditure_education_pct r /\
               government_expenditure_education_pct r <= (650 # 100))).
  { apply sound_for_each_rows. intros c _. unfold trade_country_rows.
    apply sound_bind with (P := fun v => 40 <= v /\ v <= 150); [apply sound_uniform_range; lra|].
    intros bt Hbt.
    apply sound_bind with (1 := education_gov_sound (income_group c)).
    intros [[sec ter] gov] Hgov. simpl in Hgov.
    eapply sound_weaken; [apply sound_for_each; intros y _; apply trade_year_step_sound|].
    intros rows (bs & -> & Hbs) r Hr.
    destruct (Forall2_concat_in _ _ _ _ Hbs Hr) as (y & b & _ & Hrb & r' & -> & _ & Hok).
    destruct Hrb as [<-|[]].
    destruct Hok as (_ & _ & _ & u1 & u2 & Hu1 & Hu2 & Et & Eg).
    destruct (uniform_range (-10) 10 u1) as [U1 U2]; [lra | exact Hu1 |].
    destruct (uniform_range (-1 # 2) (1 # 2) u2) as [V1 V2]; [lra | exact Hu2 |].
    rewrite Et, Eg.
    destruct (round2_int_range 30 160 (bt + uniform (-10) 10 u1)) as [T1 T2];
      [unfold inject_Z; lra | unfold inject_Z; lra |].
    refine (conj T1 (conj T2 (conj _ _))); [apply round2_ge | apply round2_le]; lra. }
  destruct (H s Hs) as (rows & s' & E & _ & Hrows).
  exists rows, s'. split; [exact E|]. intros r Hr.
  destruct (Hrows r Hr) as (c & _ & Hrest). exact Hrest.
Qed.

Lemma trade_and_expenditure_ranges_witness :
  valid_stream [1; 0; 1 # 2] /\
  exists rows s', load_trade_education countries [1; 0; 1 # 2] = Ok rows s' /\
    forall r, In r rows ->
      30 <= trade_pct_gdp r /\ trade_pct_gdp r <= 160 /\
      (150 # 100) <= government_expenditure_education_pct r /\
      government_expenditure_education_pct r <= (650 # 100).
Proof.
  assert (Hs : valid_stream [1; 0; 1 # 2]) by (repeat constructor; unfold Qle; simpl; lia).
  split; [exact Hs | apply (trade_and_expenditure_ranges countries _ Hs)].
Defined.

Lemma Qle_bool_false (a b : Q) : Qle_bool a b = false -> b < a.
Proof.
  intros H. apply Qnot_le_lt. intros H'. apply Qle_bool_iff in H'. congruence.
Qed.

Lemma py_min_mono_r (a x y : Q) : x <= y -> py_min a x <= py_min a y.
Proof.
  intros H. unfold py_min.
  destruct (Qle_bool a x) eqn:E1; destruct (Qle_bool a y) eqn:E2;
    [apply Qle_bool_iff in E1, E2 | apply Qle_bool_iff in E1; apply Qle_bool_false in E2
    | apply Qle_bool_false in E1; apply Qle_bool_iff in E2
    | apply Qle_bool_false in E1, E2]; lra.
Qed.

(** X11 *)
(** Within a country (country codes being distinct), a later year never
    has a lower stored secondary enrollment rate, and always has a
    strictly higher stored tertiary enrollment rate (0.3 points more per
    year, which rounding to hundredths cannot undo). *)
Theorem enrollment_trends_within_country (cs : list country) (s : list Q) :
  valid_stream s ->
  NoDup (map country_code cs) ->
  exists rows s', load_trade_education cs s = Ok rows s' /\
    forall r1 r2, In r1 rows -> In r2 rows -> trade_country r1 = trade_country r2 ->
      (trade_year r1 < trade_year r2)%Z ->
      secondary_enrollment_rate r1 <= secondary_enrollment_rate r2 /\
      tertiary_enrollment_rate r1 < tertiary_enrollment_rate r2.
Proof.
  intros Hs Hnd. destruct (trade_blocks cs s Hs) as (rows & s' & E & _ & bs & -> & Hbs).
  exists (List.concat bs), s'. split; [exact E|].
  intros r1 r2 H1 H2 Hk Hy.
  assert (Hbs' : Forall2 (fun c b =>
            (exists base_trade sec ter gov, forall r, In r b ->
               trade_record_ok (country_code c) base_trade sec ter gov r) /\
            forall r, In r b -> trade_country r = country_code c) cs bs).
  { eapply Forall2_impl; [|exact Hbs].
    intros c b (_ & bt & sec & ter & gov & _ & _ & Hr). split.
    - exists bt, sec, ter, gov. intros r Hrb. apply Hr, Hrb.
    - intros r Hrb. destruct (Hr r Hrb) as [_ [Hc _]]. exact Hc. }
  destruct (Forall2_concat_same_key country_code trade_country _ _ _ _ _ Hnd Hbs' H1 H2 Hk)
    as (c & b & _ & (bt & sec & ter & gov & Hr) & Hr1 & Hr2).
  destruct (Hr r1 Hr1) as (_ & S1 & T1 & _). destruct (Hr r2 Hr2) as (_ & S2 & T2 & _).
  rewrite S1, S2, T1, T2.
  set (a1 := inject_Z (trade_year r1 - 2015)). set (a2 := inject_Z (trade_year r2 - 2015)).
  assert (Ha : a1 + 1 <= a2).
  { unfold a1, a2. change 1 with (inject_Z 1). rewrite <- inject_Z_plus.
    rewrite <- Zle_Qle. lia. }
  split.
  - apply round2_mono, py_min_mono_r. lra.
  - pose proof (round2_close (ter + a1 * (3 # 10))) as [C1 C2].
    pose proof (round2_close (ter + a2 * (3 # 10))) as [C3 C4]. lra.
Qed.

Lemma enrollment_trends_within_country_witness :
  valid_stream [1 # 3] /\ NoDup (map country_code countries) /\
  exists rows s', load_trade_education countries [1 # 3] = Ok rows s' /\
    forall r1 r2, In r1 rows -> In r2 rows -> trade_country r1 = trade_country r2 ->
      (trade_year r1 < trade_year r2)%Z ->
      secondary_enrollment_rate r1 <= secondary_enrollment_rate r2 /\
      tertiary_enrollment_rate r1 < tertiary_enrollment_rate r2.
Proof.
  assert (Hs : valid_stream [1 # 3]) by (repeat constructor; unfold Qle; simpl; lia).
  split; [exact Hs|]. split; [exact catalog_codes_nodup|].
  apply (enrollment_trends_within_country countries _ Hs catalog_codes_nodup).
Defined.

(** ** Poverty: ranges of the stored rates *)

Lemma poverty_bases_range (ig : string) :
  sound valid_stream (poverty_bases ig)
        (fun b => 1 <= fst (fst b) /\ fst (fst b) <= 95 /\ 1 <= snd (fst b) /\
                  snd (fst b) <= 95 /\ 1 <= snd b /\ snd b <= 95).
Proof.
  unfold poverty_bases.
  destruct (String.eqb ig LI); [|destruct (String.eqb ig LMI)];
  (apply sound_bind with (P := fun v => 1 <= v /\ v <= 95); [eapply sound_weaken;
     [apply sound_uniform_range; lra | simpl; intros; lra]|]; intros b1 H1;
   apply sound_bind with (P := fun v => 1 <= v /\ v <= 95); [eapply sound_weaken;
     [apply sound_uniform_range; lra | simpl; intros; lra]|]; intros b2 H2;
   apply sound_bind with (P := fun v => 1 <= v /\ v <= 95); [eapply sound_weaken;
     [apply sound_uniform_range; lra | simpl; intros; lra]|]; intros b3 H3;
   apply sound_ret; simpl; lra).
Qed.

Lemma reduction_factor_range (y : Z) :
  In y survey_years -> (85 # 100) <= reduction_factor y /\ reduction_factor y <= 1.
Proof.
  simpl. intros H. repeat destruct H as [<-|H]; try contradiction;
    unfold reduction_factor; simpl; split; vm_compute; discriminate.
Qed.

(** X12 *)
(** For any countries, every stored poverty headcount rate lies in
    [0.85, 95]: each base lies in [1, 95] and the reduction factor of a
    survey year in [0.85, 1]. *)
Theorem poverty_rates_range (cs : list country) (s : list Q) :
  valid_stream s ->
  exists rows s', load_poverty_data cs s = Ok rows s' /\
    forall r, In r rows ->
      (85 # 100) <= poverty_headcount_215_pct r /\ poverty_headcount_215_pct r <= 95 /\
      (85 # 100) <= poverty_headcount_365_pct r /\ poverty_headcount_365_pct r <= 95 /\
      (85 # 100) <= poverty_headcount_685_pct r /\ poverty_headcount_685_pct r <= 95.
Proof.
  intros Hs.
  assert (Hb : forall b y, 1 <= b -> b <= 95 -> In y survey_years ->
            (85 # 100) <= round2 (b * reduction_factor y) /\
            round2 (b * reduction_factor y) <= 95).
  { intros b y B1 B2 Hy. destruct (reduction_factor_range y Hy) as [F1 F2].
    assert (P1 : (85 # 100) <= b * reduction_factor y) by nra.
    assert (P2 : b * reduction_factor y <= (9500 # 100)) by nra.
    split; [apply round2_ge, P1|]. pose proof (round2_le 9500 _ P2). lra. }
  assert (H : sound valid_stream (load_poverty_data cs)
            (fun rows => forall r, In r rows -> exists c, In c cs /\
      (85 # 100) <= poverty_headcount_215_pct r /\ poverty_headcount_215_pct r <= 95 /\
      (85 # 100) <= poverty_headcount_365_pct r /\ poverty_headcount_365_pct r <= 95 /\
      (85 # 100) <= poverty_headcount_685_pct r /\ poverty_headcount_685_pct r <= 95)).
  { apply sound_for_each_rows. intros c _. unfold pov_country_rows.
    destruct (has_poverty_data (income_group c)); [|apply sound_ret; intros r []].
    apply sound_bind with (1 := poverty_bases_range (income_group c)).
    intros [[b1 b2] b3] Hbs. simpl in Hbs.
    intros s1 Hs1. rewrite for_each_singleton_ret. eexists _, s1.
    split; [reflexivity|]. split; [exact Hs1|].
    intros r Hr. apply in_map_iff in Hr as (y & <- & Hy). simpl.
    destruct (Hb b1 y) as [A1 A2]; [lra | lra | exact Hy |].
    destruct (Hb b2 y) as [B1 B2]; [lra | lra | exact Hy |].
    destruct (Hb b3 y) as [C1 C2]; [lra | lra | exact Hy |].
    auto 7. }
  destruct (H s Hs) as (rows & s' & E & _ & Hrows).
  exists rows, s'. split; [exact E|]. intros r Hr.
  destruct (Hrows r Hr) as (c & _ & Hrest). exact Hrest.
Qed.

Lemma poverty_rates_range_witness :
  valid_stream [1; 1; 1] /\
  exists rows s', load_poverty_data countries [1; 1; 1] = Ok rows s' /\
    forall r, In r rows ->
      (85 # 100) <= poverty_headcount_215_pct r /\ poverty_headcount_215_pct r <= 95 /\
      (85 # 100) <= poverty_headcount_365_pct r /\ poverty_headcount_365_pct r <= 95 /\
      (85 # 100) <= poverty_headcount_685_pct r /\ poverty_headcount_685_pct r <= 95.
Proof.
  assert (Hs : valid_stream [1; 1; 1]) by (repeat constructor; unfold Qle; simpl; lia).
  split; [exact Hs | apply (poverty_rates_range countries _ Hs)].
Defined.

Lemma gdp_per_capita_nonnegative_witness :
  valid_stream [0; 0] /\
  (forall c, In c countries -> In (income_group c) income_group_names) /\
  exists rows s', load_gdp_data countries [0; 0] = Ok rows s' /\
    forall r, In r rows -> 0 <= gdp_per_capita_current_usd r.
Proof.
  assert (Hs : valid_stream [0; 0]) by (repeat constructor; unfold Qle; simpl; lia).
  split; [exact Hs|]. split; [exact catalog_income_groups|].
  apply (gdp_per_capita_nonnegative countries _ Hs catalog_income_groups).
Defined.

(** ** Draws consumed per country *)

(** From a valid stream holding at least [n] draws, [m] returns and
    leaves the stream without its first [n] draws. *)
Definition consumes {A} (n : nat) (m : M A) : Prop :=
  forall s, valid_stream s -> (n <= List.length s)%nat -> exists a, m s = Ok a (skipn n s).

Lemma consumes_eq {A} (n n' : nat) (m : M A) : n = n' -> consumes n m -> consumes n' m.
Proof. intros ->. auto. Qed.

Lemma consumes_ret {A} (a : A) : consumes 0 (ret a).
Proof. intros s _ _. exists a. reflexivity. Qed.

Lemma valid_skipn (n : nat) (s : list Q) : valid_stream s -> valid_stream (skipn n s).
Proof.
  revert s. induction n as [|n IH]; intros s Hs; [exact Hs|].
  destruct s as [|u s]; [constructor|]. inversion Hs; subst. apply IH. assumption.
Qed.

Lemma consumes_bind {A B} (n k : nat) (m : M A) (f : A -> M B) :
  consumes n m -> (forall a, consumes k (f a)) -> consumes (n + k) (bind m f).
Proof.
  intros Hm Hf s Hs Hl. destruct (Hm s Hs) as (a & Ea); [lia|].
  destruct (Hf a (skipn n s)) as (b & Eb); [apply valid_skipn, Hs | rewrite length_skipn; lia|].
  exists b. unfold bind. rewrite Ea, Eb, skipn_skipn, Nat.add_comm. reflexivity.
Qed.

Lemma consumes_random_uniform (a b : Q) : consumes 1 (random_uniform a b).
Proof.
  intros [|u s] _ Hl; simpl in Hl; [lia|]. eexists. reflexivity.
Qed.

Lemma consumes_for_each {A B} (xs : list A) (k : A -> nat) (body : A -> M (list B)) :
  (forall x, In x xs -> consumes (k x) (body x)) ->
  consumes (list_sum (map k xs)) (for_each xs body).
Proof.
  induction xs as [|x xs IH]; intros Hb; cbn [for_each map list_sum].
  - apply consumes_ret.
  - apply (consumes_eq (k x + (list_sum (map k xs) + 0))); [simpl; lia|].
    apply consumes_bind; [apply Hb; left; reflexivity|]. intros r.
    apply consumes_bind; [apply IH; intros y Hy; apply Hb; right; exact Hy|].
    intros rs. apply consumes_ret.
Qed.

Lemma list_sum_const {A} (k : nat) (xs : list A) :
  list_sum (map (fun _ => k) xs) = (k * List.length xs)%nat.
Proof. induction xs as [|x xs IH]; simpl; lia. Qed.

Lemma consumes_gdp_country (c : country) :
  In (income_group c) income_group_names -> consumes 11 (gdp_country_rows c).
Proof.
  intros Hig. unfold gdp_country_rows.
  destruct (gdp_range_of _ Hig) as (lo & hi & -> & _ & _).
  apply (consumes_eq (0 + (1 + list_sum (map (fun y => if Z.eqb y 2020 then 2 else 1)%nat
                                             (py_range 2015 2024))))); [reflexivity|].
  apply consumes_bind; [apply consumes_ret|]. intros rng.
  apply consumes_bind; [apply consumes_random_uniform|]. intros base.
  apply consumes_for_each. intros y _. unfold gdp_year_step.
  apply (consumes_eq (1 + ((if Z.eqb y 2020 then 1 else 0) + 0))%nat);
    [destruct (Z.eqb y 2020); reflexivity|].
  apply consumes_bind; [unfold group_growth;
    destruct (String.eqb _ HI); [|destruct (String.eqb _ UMI); [|destruct (String.eqb _ LMI)]];
    apply consumes_random_uniform|].
  intros g. apply consumes_bind; [|intros; apply consumes_ret].
  destruct (Z.eqb y 2020); [apply consumes_random_uniform | apply consumes_ret].
Qed.

Lemma consumes_ineq_year (code : string) (base : Q) (y : Z) :
  consumes 3 (ineq_year_step code base y).
Proof.
  intros s Hs Hl. destruct s as [|u1 [|u2 [|u3 s]]]; simpl in Hl; try lia.
  inversion Hs as [|? ? Hu1 Hs1]; inversion Hs1 as [|? ? Hu2 _]; subst.
  unfold ineq_year_step, random_uniform, random_, bind, ret.
  destruct (uniform_range 4 9 u2) as [L _]; [lra | exact Hu2 |].
  rewrite py_div_nonzero by lra. eexists. reflexivity.
Qed.

Lemma consumes_ineq_country (c : country) :
  In (region c) (map fst gini_ranges) -> consumes 16 (ineq_country_rows c).
Proof.
  intros Hrg. unfold ineq_country_rows.
  destruct (gini_range_of _ Hrg) as (lo & hi & -> & _).
  apply (consumes_eq (0 + (1 + list_sum (map (fun _ => 3%nat) survey_years)))); [reflexivity|].
  apply consumes_bind; [apply consumes_ret|]. intros rng.
  apply consumes_bind; [apply consumes_random_uniform|]. intros base.
  apply consumes_for_each. intros y _. apply consumes_ineq_year.
Qed.

Lemma consumes_three {A} (k : Q -> Q -> Q -> A) (a1 b1 a2 b2 a3 b3 : Q) :
  consumes 3 (x <- random_uniform a1 b1 ;; y <- random_uniform a2 b2 ;;
              z <- random_uniform a3 b3 ;; ret (k x y z)).
Proof.
  apply (consumes_eq (1 + (1 + (1 + 0)))); [reflexivity|].
  apply consumes_bind; [apply consumes_random_uniform|]; intros x.
  apply consumes_bind; [apply consumes_random_uniform|]; intros y.
  apply consumes_bind; [apply consumes_random_uniform|]; intros z.
  apply consumes_ret.
Qed.

Lemma consumes_pov_country (c : country) :
  consumes (if has_poverty_data (income_group c) then 3 else 0) (pov_country_rows c).
Proof.
  unfold pov_country_rows. destruct (has_poverty_data (income_group c)); [|apply consumes_ret].
  apply (consumes_eq (3 + 0)); [reflexivity|].
  apply consumes_bind.
  - unfold poverty_bases.
    destruct (String.eqb _ LI); [|destruct (String.eqb _ LMI)]; apply consumes_three.
  - intros [[b1 b2] b3]. intros s _ _. exists (map (fun year =>
      poverty_record (country_code c) b1 b2 b3 year) survey_years).
    rewrite for_each_singleton_ret. reflexivity.
Qed.

Lemma consumes_trade_country (c : country) : consumes 22 (trade_country_rows c).
Proof.
  unfold trade_country_rows.
  apply (consumes_eq (1 + (3 + list_sum (map (fun _ => 2%nat) (py_range 2015 2024)))));
    [reflexivity|].
  apply consumes_bind; [apply consumes_random_uniform|]. intros bt.
  apply consumes_bind; [unfold education_bases;
    destruct (String.eqb _ HI); [|destruct (String.eqb _ UMI); [|destruct (String.eqb _ LMI)]];
    apply consumes_three|].
  intros [[sec ter] gov]. apply consumes_for_each. intros y _. unfold trade_year_step.
  apply (consumes_eq (1 + (1 + 0))); [reflexivity|].
  apply consumes_bind; [apply consumes_random_uniform|]. intros tn.
  apply consumes_bind; [apply consumes_random_uniform|]. intros gn.
  apply consumes_ret.
Qed.

(** X13 *)
(** How many pseudo-random draws each generator takes: 11 per country
    for GDP (the base, one growth per year, and one more in 2020, where
    the group growth drawn first is discarded), 16 per country for
    inequality (the base, then noise, lowest and highest shares for each
    of the 5 survey years), 3 per country with poverty data and none for
    the others, and 22 per country for trade and education (the trade
    base, the three education bases, then two noises for each of the 9
    years). *)
Theorem draws_consumed_per_country (cs : list country) (s : list Q) :
  valid_stream s ->
  ((forall c, In c cs -> In (income_group c) income_group_names) ->
   (11 * List.length cs <= List.length s)%nat ->
   exists rows, load_gdp_data cs s = Ok rows (skipn (11 * List.length cs) s)) /\
  ((forall c, In c cs -> In (region c) (map fst gini_ranges)) ->
   (16 * List.length cs <= List.length s)%nat ->
   exists rows, load_inequality_data cs s = Ok rows (skipn (16 * List.length cs) s)) /\
  (let n := (3 * List.length (filter (fun c => has_poverty_data (income_group c)) cs))%nat in
   (n <= List.length s)%nat -> exists rows, load_poverty_data cs s = Ok rows (skipn n s)) /\
  ((22 * List.length cs <= List.length s)%nat ->
   exists rows, load_trade_education cs s = Ok rows (skipn (22 * List.length cs) s)).
Proof.
  intros Hs. refine (conj _ (conj _ (conj _ _))).
  - intros Hcs Hl. unfold load_gdp_data.
    apply (consumes_eq (list_sum (map (fun _ => 11%nat) cs))); [apply list_sum_const| |exact Hs|exact Hl].
    apply consumes_for_each. intros c Hc. apply consumes_gdp_country, Hcs, Hc.
  - intros Hcs Hl. unfold load_inequality_data.
    apply (consumes_eq (list_sum (map (fun _ => 16%nat) cs))); [apply list_sum_const| |exact Hs|exact Hl].
    apply consumes_for_each. intros c Hc. apply consumes_ineq_country, Hcs, Hc.
  - intros n Hl. unfold load_poverty_data.
    apply (consumes_eq (list_sum (map (fun c => if has_poverty_data (income_group c) then 3 else 0)%nat cs)));
      [| apply consumes_for_each; intros c _; apply consumes_pov_country | exact Hs | exact Hl].
    unfold n. clear. induction cs as [|c cs IH]; [reflexivity|].
    cbn [map list_sum filter]. destruct (has_poverty_data (income_group c)); simpl; lia.
  - intros Hl. unfold load_trade_education.
    apply (consumes_eq (list_sum (map (fun _ => 22%nat) cs))); [apply list_sum_const| |exact Hs|exact Hl].
    apply consumes_for_each. intros c _. apply consumes_trade_country.
Qed.

Lemma draws_consumed_per_country_witness :
  valid_stream (repeat (1 # 2) 22) /\
  ((forall c, In c [mkCountry "CHN" "China" EAP UMI] -> In (income_group c) income_group_names) ->
   (11 * List.length [mkCountry "CHN" "China" EAP UMI] <= List.length (repeat (1 # 2) 22))%nat ->
   exists rows, load_gdp_data [mkCountry "CHN" "China" EAP UMI] (repeat (1 # 2) 22)
     = Ok rows (skipn (11 * List.length [mkCountry "CHN" "China" EAP UMI]) (repeat (1 # 2) 22))) /\
  ((forall c, In c [mkCountry "CHN" "China" EAP UMI] -> In (region c) (map fst gini_ranges)) ->
   (16 * List.length [mkCountry "CHN" "China" EAP UMI] <= List.length (repeat (1 # 2) 22))%nat ->
   exists rows, load_inequality_data [mkCountry "CHN" "China" EAP UMI] (repeat (1 # 2) 22)
     = Ok rows (skipn (16 * List.length [mkCountry "CHN" "China" EAP UMI]) (repeat (1 # 2) 22))) /\
  (let n := (3 * List.length (filter (fun c => has_poverty_data (income_group c))
                                     [mkCountry "CHN" "China" EAP UMI]))%nat in
   (n <= List.length (repeat (1 # 2) 22))%nat ->
   exists rows, load_poverty_data [mkCountry "CHN" "China" EAP UMI] (repeat (1 # 2) 22)
     = Ok rows (skipn n (repeat (1 # 2) 22))) /\
  ((22 * List.length [mkCountry "CHN" "China" EAP UMI] <= List.length (repeat (1 # 2) 22))%nat ->
   exists rows, load_trade_education [mkCountry "CHN" "China" EAP UMI] (repeat (1 # 2) 22)
     = Ok rows (skipn (22 * List.length [mkCountry "CHN" "China" EAP UMI]) (repeat (1 # 2) 22))).
Proof.
  assert (Hs : valid_stream (repeat (1 # 2) 22))
    by (simpl; repeat constructor; unfold Qle; simpl; lia).
  split; [exact Hs | apply (draws_consumed_per_country _ _ Hs)].
Defined.

(** ** The run: tables it does not own, a failed write, the summary *)

(** [m] leaves the table [t] of the database as it is. *)
Definition io_frame {A} (t : string) (m : IO A) : Prop :=
  forall w, w_db (snd (m w)) t = w_db w t.

Lemma io_frame_bind {A B} t (m : IO A) (k : A -> IO B) :
  io_frame t m -> (forall a, io_frame t (k a)) -> io_frame t (io_bind m k).
Proof.
  intros Hm Hk w. unfold io_bind. specialize (Hm w).
  destruct (m w) as [[e|a] w'] eqn:E; simpl in Hm |- *; [exact Hm | rewrite Hk; exact Hm].
Qed.

Lemma io_frame_emit t ev : io_frame t (emit ev).
Proof. intros w. reflexivity. Qed.

Lemma io_frame_ret {A} t (a : A) : io_frame t (io_ret a).
Proof. intros w. reflexivity. Qed.

Lemma io_frame_sample {A} t (g : M A) : io_frame t (sample g).
Proof. intros w. unfold sample. destruct (g (w_rng w)); reflexivity. Qed.

Lemma io_frame_to_sql (E : env) t t' rows : t <> t' -> io_frame t (to_sql_replace E t' rows).
Proof.
  intros Hne w. unfold to_sql_replace. destruct (write_fails E t' (w_db w)); [reflexivity|].
  simpl. unfold db_set. apply String.eqb_neq in Hne. rewrite Hne. reflexivity.
Qed.

Lemma io_frame_report_counts t ts : io_frame t (report_counts ts).
Proof.
  induction ts as [|t' ts IH]; simpl; [apply io_frame_ret|].
  apply io_frame_bind; [intros w; unfold count_rows; destruct (w_db w t'); reflexivity|].
  intros n. apply io_frame_bind; [apply io_frame_emit | intros _; exact IH].
Qed.

Lemma io_frame_apply {A} t (m : IO A) (w : world) :
  io_frame t m -> w_db (snd (m w)) t = w_db w t.
Proof. intros H. apply H. Qed.

Lemma not_in_tables (t : string) :
  ~ In t tables ->
  t <> "country_metadata"%string /\ t <> "gdp_data"%string /\
  t <> "inequality_metrics"%string /\ t <> "poverty_indicators"%string /\
  t <> "trade_education"%string.
Proof. intros H. simpl in H. repeat split; intros ->; tauto. Qed.

Lemma try_body_frame (E : env) (t : string) (w : world) :
  ~ In t tables ->
  w_db (snd (try_body E w)) t =
  match schema_file E with
  | None => w_db w t
  | Some text => fst (executescript E text (w_db w)) t
  end.
Proof.
  intros Ht. destruct (not_in_tables t Ht) as (N1 & N2 & N3 & N4 & N5).
  unfold try_body. unfold io_bind at 1. cbn [say emit snd].
  unfold io_bind at 1. unfold run_schema at 1. cbn [w_db w_rng w_out w_conn_open].
  destruct (schema_file E) as [text|]; [|reflexivity].
  destruct (executescript E text (w_db w)) as [d' []]; [reflexivity|].
  cbn [snd fst].
  rewrite io_frame_apply; [reflexivity|].
  unfold io_load_country_metadata, io_load_gdp_data, io_load_inequality_data,
    io_load_poverty_data, io_load_trade_education, say.
  repeat match goal with
  | |- io_frame _ (io_bind _ _) => apply io_frame_bind; [| intros ?]
  | |- io_frame _ (emit _) => apply io_frame_emit
  | |- io_frame _ (io_ret _) => apply io_frame_ret
  | |- io_frame _ (sample _) => apply io_frame_sample
  | |- io_frame _ (report_counts _) => apply io_frame_report_counts
  | |- io_frame _ (to_sql_replace _ _ _) => apply io_frame_to_sql; assumption
  end.
Qed.

Lemma main_db (E : env) (w : world) :
  w_db (snd (main E w)) =
  w_db (snd (try_body E (connect (snd (say "BASIC GLOBAL INEQUALITY DATABASE LOADER" w))))).
Proof. unfold main. destruct (try_body E _) as [[e|u] w2]; reflexivity. Qed.

(** X14 *)
(** A run changes no table other than its five: any other table of the
    database holds, after [main], what the schema script left in it (or,
    if [schema.sql] cannot be opened, what it held before the run),
    whether the run succeeds or fails. *)
Theorem run_touches_only_its_tables (E : env) (w : world) (t : string) :
  ~ In t tables ->
  w_db (snd (main E w)) t =
  match schema_file E with
  | None => w_db w t
  | Some text => fst (executescript E text (w_db w)) t
  end.
Proof.
  intros Ht. rewrite main_db, try_body_frame by exact Ht. reflexivity.
Qed.

Lemma run_touches_only_its_tables_witness :
  ~ In "regional_summary"%string tables /\
  w_db (snd (main env_ok world0)) "regional_summary"%string =
  match schema_file env_ok with
  | None => w_db world0 "regional_summary"%string
  | Some text => fst (executescript env_ok text (w_db world0)) "regional_summary"%string
  end.
Proof.
  assert (Ht : ~ In "regional_summary"%string tables) by (apply str_in_false; reflexivity).
  split; [exact Ht | apply (run_touches_only_its_tables env_ok world0 _ Ht)].
Defined.

Ltac run_io :=
  cbv beta iota zeta delta [io_bind io_ret say emit sample to_sql_replace run_schema
    connect w_db w_rng w_out w_conn_open try_body io_load_country_metadata
    io_load_gdp_data io_load_inequality_data fst snd].

Lemma try_body_ineq_write_fails (E : env) (w : world) (text : string) (d' : db) :
  valid_stream (w_rng w) ->
  schema_file E = Some text -> executescript E text (w_db w) = (d', false) ->
  (forall d, write_fails E "country_metadata" d = false) ->
  (forall d, write_fails E "gdp_data" d = false) ->
  (forall d, write_fails E "inequality_metrics" d = true) ->
  exists rows w2, try_body E w = (inl DatabaseError, w2) /\ List.length rows = 432%nat /\
    w_db w2 = db_set (db_set d' "country_metadata" (map CountryRow countries))
                     "gdp_data" (map GdpRow rows) /\
    w_out w2 = w_out w ++ [EvPrint msg_schema; EvPrint "Schema created";
                           EvPrint msg_country; EvLoaded "country_metadata" 48;
                           EvPrint msg_gdp; EvLoaded "gdp_data" 432; EvPrint msg_ineq].
Proof.
  intros Hs Hf Hx Hc Hg Hi.
  destruct w as [d0 r0 o0 c0]. cbn [w_db w_rng w_out w_conn_open] in *.
  destruct (gdp_length _ Hs) as (rg & s2 & Eg & Hs2 & Lg).
  destruct (ineq_length _ Hs2) as (ri & s3 & Ei & _ & _).
  exists rg. eexists. split.
  - run_io. rewrite Hf. run_io. rewrite Hx. run_io. rewrite Hc. run_io.
    rewrite Eg. run_io. rewrite Hg. run_io. rewrite Ei. run_io. rewrite Hi. reflexivity.
  - split; [exact Lg|]. split; [reflexivity|]. cbn [w_out].
    rewrite <- !app_assoc, Lg. reflexivity.
Qed.

(** X15 *)
(** A failed write stops the run where it happens: if the schema script
    runs and the write of [inequality_metrics] is the first [to_sql] to
    fail, [main] reports [DatabaseError], the two tables written before
    it hold this run's rows (48 countries, 432 GDP records), the poverty
    and trade tables are left as the schema script left them, and the
    later stages never start (their messages are not printed). *)
Theorem ineq_write_failure_keeps_earlier_tables (E : env) (w : world) (text : string) (d' : db) :
  valid_stream (w_rng w) ->
  schema_file E = Some text -> executescript E text (w_db w) = (d', false) ->
  (forall d, write_fails E "country_metadata" d = false) ->
  (forall d, write_fails E "gdp_data" d = false) ->
  (forall d, write_fails E "inequality_metrics" d = true) ->
  let w' := snd (main E w) in
  fst (main E w) = Some DatabaseError /\
  table_count (w_db w') "country_metadata" = Some 48%nat /\
  table_count (w_db w') "gdp_data" = Some 432%nat /\
  w_db w' "poverty_indicators"%string = d' "poverty_indicators"%string /\
  w_db w' "trade_education"%string = d' "trade_education"%string /\
  count_print msg_pov (w_out w') = count_print msg_pov (w_out w) /\
  count_print msg_trade (w_out w') = count_print msg_trade (w_out w).
Proof.
  intros Hs Hf Hx Hc Hg Hi w'.
  set (w1 := connect (snd (say "BASIC GLOBAL INEQUALITY DATABASE LOADER" w))).
  destruct (try_body_ineq_write_fails E w1 text d') as (rows & w2 & Ht & Lr & Hd & Ho);
    [exact Hs | exact Hf | exact Hx | exact Hc | exact Hg | exact Hi |].
  assert (Hm : main E w = (Some DatabaseError, close (snd (handler DatabaseError w2)))).
  { unfold main. fold w1. rewrite Ht. reflexivity. }
  unfold w'. rewrite Hm. cbn [fst snd close handler io_bind emit w_db w_out].
  rewrite Hd, Ho.
  refine (conj eq_refl (conj _ (conj _ (conj eq_refl (conj eq_refl (conj _ _)))))).
  - reflexivity.
  - unfold table_count, db_set. simpl. rewrite length_map, Lr. reflexivity.
  - unfold w1, count_print. cbn [connect say emit snd w_out].
    rewrite !filter_app, !length_app. simpl. lia.
  - unfold w1, count_print. cbn [connect say emit snd w_out].
    rewrite !filter_app, !length_app. simpl. lia.
Qed.

Definition env_ineq_fails : env :=
  mkEnv (Some "CREATE TABLE IF NOT EXISTS inequality_metrics (gini_coefficient REAL);"%string)
        (fun _ d => (d, false)) (fun t _ => String.eqb t "inequality_metrics").

Lemma ineq_write_failure_keeps_earlier_tables_witness :
  valid_stream (w_rng world0) /\
  schema_file env_ineq_fails =
    Some "CREATE TABLE IF NOT EXISTS inequality_metrics (gini_coefficient REAL);"%string /\
  executescript env_ineq_fails
    "CREATE TABLE IF NOT EXISTS inequality_metrics (gini_coefficient REAL);"%string
    (w_db world0) = (w_db world0, false) /\
  (forall d, write_fails env_ineq_fails "country_metadata" d = false) /\
  (forall d, write_fails env_ineq_fails "gdp_data" d = false) /\
  (forall d, write_fails env_ineq_fails "inequality_metrics" d = true) /\
  let w' := snd (main env_ineq_fails world0) in
  fst (main env_ineq_fails world0) = Some DatabaseError /\
  table_count (w_db w') "country_metadata" = Some 48%nat /\
  table_count (w_db w') "gdp_data" = Some 432%nat /\
  w_db w' "poverty_indicators"%string = w_db world0 "poverty_indicators"%string /\
  w_db w' "trade_education"%string = w_db world0 "trade_education"%string /\
  count_print msg_pov (w_out w') = count_print msg_pov (w_out world0) /\
  count_print msg_trade (w_out w') = count_print msg_trade (w_out world0).
Proof.
  assert (Hs : valid_stream (w_rng world0)) by constructor.
  assert (Hf : schema_file env_ineq_fails =
    Some "CREATE TABLE IF NOT EXISTS inequality_metrics (gini_coefficient REAL);"%string)
    by reflexivity.
  assert (Hx : executescript env_ineq_fails
    "CREATE TABLE IF NOT EXISTS inequality_metrics (gini_coefficient REAL);"%string
    (w_db world0) = (w_db world0, false)) by reflexivity.
  assert (Hc : forall d, write_fails env_ineq_fails "country_metadata" d = false)
    by (intros d; reflexivity).
  assert (Hg : forall d, write_fails env_ineq_fails "gdp_data" d = false)
    by (intros d; reflexivity).
  assert (Hi : forall d, write_fails env_ineq_fails "inequality_metrics" d = true)
    by (intros d; reflexivity).
  refine (conj Hs (conj Hf (conj Hx (conj Hc (conj Hg (conj Hi _)))))).
  exact (ineq_write_failure_keeps_earlier_tables env_ineq_fails world0
    "CREATE TABLE IF NOT EXISTS inequality_metrics (gini_coefficient REAL);"%string
    (w_db world0) Hs Hf Hx Hc Hg Hi).
Defined.


Lemma count_of_table_count (d : db) (t : string) (n : nat) :
  table_count d t = Some n ->
  match d t with Some rows => List.length rows | None => 0%nat end = n.
Proof. unfold table_count. destruct (d t); simpl; congruence. Qed.


